(** * Authentication backend (main.py): shallow embedding and properties

    The handlers of [main.py] are embedded as computations in a small
    state-and-exception monad over a [World]: the document store, the
    wall clock and the entropy source.  Each call of [datetime.now] is a
    read of the clock, and successive reads may return different
    instants.  The store keeps documents in insertion order and, being
    a BSON store, keeps whole milliseconds of a timestamp.  A handler
    runs from its first line to its last on the store it finds: requests
    are taken one at a time.

    The two third-party libraries the handlers call (the JWT codec and
    the password-hashing context) are taken as records of operations,
    with the laws the handlers rely on stated as [JwtLaws] and
    [HashLaws]: a token carries its expiry in whole seconds and is
    refused from that second on, and the hasher refuses a secret of more
    than 4096 characters or with a NUL character.  Reference
    implementations of both interfaces are given and used to run the
    handlers on concrete requests. *)

From Stdlib Require Import ZArith Lia Ascii String.
From stdpp Require Import base option list strings gmap sorting pretty countable.

Local Open Scope Z_scope.

(** ** Python values and exceptions *)

(** [datetime] values are points of the UTC time line counted in
    microseconds, the resolution of Python's [datetime]. *)
Definition datetime : Type := Z.

Definition timedelta_minutes (m : Z) : Z := m * 60000000.

(** [datetime.min] and [datetime.max] (years 1 to 9999), and the range
    of a [timedelta] (999999999 days either way). *)
Definition datetime_min : datetime := -62135596800000000.
Definition datetime_max : datetime := 253402300799999999.
Definition timedelta_min : Z := -999999999 * 86400000000.
Definition timedelta_max : Z := 999999999 * 86400000000 + 86399999999.

(** A BSON date keeps whole milliseconds: what the store holds of a
    [datetime] it was given. *)
Definition bson_datetime (t : datetime) : datetime := t / 1000 * 1000.

(** The NumericDate of a [datetime]: whole seconds since the epoch, as
    the JWT library writes a [datetime] given under [exp]. *)
Definition numeric_date (t : datetime) : Z := t / 1000000.

(** Scalar JSON values, as found in a decoded token payload. *)
Inductive jval : Type :=
  | JNull
  | JBool (b : bool)
  | JInt (n : Z)
  | JStr (s : string).

Global Instance jval_eq_dec : EqDecision jval.
Proof. solve_decision. Defined.

Definition jval_to_sum (v : jval) : unit + bool + Z + string :=
  match v with
  | JNull => inl (inl (inl tt))
  | JBool b => inl (inl (inr b))
  | JInt n => inl (inr n)
  | JStr s => inr s
  end.

Definition jval_of_sum (x : unit + bool + Z + string) : jval :=
  match x with
  | inl (inl (inl _)) => JNull
  | inl (inl (inr b)) => JBool b
  | inl (inr n) => JInt n
  | inr s => JStr s
  end.

Global Instance jval_countable : Countable jval.
Proof.
  apply (inj_countable' jval_to_sum jval_of_sum).
  intros []; reflexivity.
Defined.

(** A token payload is a Python [dict] with string keys. *)
Abbreviation payload := (gmap string jval).

(** Python truthiness of the result of [dict.get]: a missing key gives
    [None]; [None], [False], [0] and the empty string are falsy. *)
Definition py_truthy (v : option jval) : bool :=
  match v with
  | None => false
  | Some JNull => false
  | Some (JBool b) => b
  | Some (JInt n) => negb (n =? 0)%Z
  | Some (JStr s) => negb (bool_decide (s = ""))
  end.

(** Exceptions raised by the handlers and by the libraries they call.
    The errors of the hashing library are [ValueError]s (its own classes
    derive from it); those of the JWT library keep their names. *)
Inductive exn : Type :=
  | HTTPException (status_code : Z) (detail : string)
  | ValueError (msg : string)
  | TypeError (msg : string)
  | KeyError (key : string)
  | ExpiredSignatureError
  | InvalidSignatureError
  | DecodeError
  | InvalidAlgorithmError
  | OverflowError.

Global Instance exn_eq_dec : EqDecision exn.
Proof. solve_decision. Defined.

Inductive outcome (A : Type) : Type :=
  | Ret (a : A)
  | Raise (e : exn).
Arguments Ret {A} a.
Arguments Raise {A} e.

(** [t + timedelta(minutes=m)]: [OverflowError] when the [timedelta]
    or the sum is out of range. *)
Definition py_add_minutes (t : datetime) (m : Z) : outcome datetime :=
  let delta := timedelta_minutes m in
  if (timedelta_min <=? delta) && (delta <=? timedelta_max) then
    if (datetime_min <=? t + delta) && (t + delta <=? datetime_max)
    then Ret (t + delta)
    else Raise OverflowError
  else Raise OverflowError.

(** ** Python string operations used on the Authorization header

    A header value reaches the handler as a [str] of Latin-1 code
    points, one per byte; [ascii] stands for such a code point. *)

Definition py_isspace (c : ascii) : bool :=
  let n := N_of_ascii c in
  ((9 <=? n) && (n <=? 13) || (28 <=? n) && (n <=? 32)
   || (n =? 133) || (n =? 160))%N.

Definition py_lower_char (c : ascii) : ascii :=
  let n := N_of_ascii c in
  if ((65 <=? n) && (n <=? 90)
      || (192 <=? n) && (n <=? 222) && negb (n =? 215))%N
  then ascii_of_N (n + 32) else c.

Fixpoint py_lower (s : string) : string :=
  match s with
  | EmptyString => EmptyString
  | String c s' => String (py_lower_char c) (py_lower s')
  end.

Definition snoc_char (w : string) (c : ascii) : string :=
  w +:+ String c EmptyString.

(** [str.split()] without arguments: the maximal runs of characters that
    are not white space.  [word] is the run being read. *)
Fixpoint py_split_from (word : string) (s : string) : list string :=
  match s with
  | EmptyString => if bool_decide (word = "") then [] else [word]
  | String c s' =>
      if py_isspace c
      then (if bool_decide (word = "") then py_split_from "" s'
            else word :: py_split_from "" s')
      else py_split_from (snoc_char word c) s'
  end.

Definition py_split (s : string) : list string := py_split_from "" s.

(** Text of a request body or of an error message is held in UTF-8;
    [len] and slicing count characters, not bytes. *)
Definition utf8_continuation (c : ascii) : bool :=
  let n := N_of_ascii c in ((128 <=? n) && (n <? 192))%N.

Fixpoint py_len (s : string) : nat :=
  match s with
  | EmptyString => 0%nat
  | String c s' => if utf8_continuation c then py_len s' else S (py_len s')
  end.

(** [s[:n]] on a [str]: the bytes of the first [n] characters. *)
Fixpoint py_str_take (n : nat) (s : string) : string :=
  match s with
  | EmptyString => EmptyString
  | String c s' =>
      if utf8_continuation c then String c (py_str_take n s')
      else match n with
           | O => EmptyString
           | S n' => String c (py_str_take n' s')
           end
  end.

(** ** Documents (schemas.py) and the store *)

Definition ObjectId : Type := N.

(** [str(_id)] *)
Definition str_oid (i : ObjectId) : string := pretty i.

Record Users : Type := mkUser {
  u__id : ObjectId;
  u_name : string;
  u_email : string;
  u_password : option string;
  u_is_verified : option bool;
  u_created_at : option datetime;
  u_updated_at : option datetime;
  u_last_login : option datetime
}.

Record Otp_codes : Type := mkOtp {
  o__id : ObjectId;
  o_email : string;
  o_otp : option string;
  o_created_at : option datetime;
  o_expires_at : option datetime
}.

Record Conversations : Type := mkConv {
  c__id : ObjectId;
  c_user_id : string;
  c_title : string;
  c_created_at : option datetime;
  c_updated_at : option datetime;
  c_message_count : Z
}.

Global Instance Users_eq_dec : EqDecision Users.
Proof. solve_decision. Defined.
Global Instance Otp_codes_eq_dec : EqDecision Otp_codes.
Proof. solve_decision. Defined.
Global Instance Conversations_eq_dec : EqDecision Conversations.
Proof. solve_decision. Defined.

(** The collections in natural (insertion) order, and the counter the
    store draws fresh [_id]s from. *)
Record DB : Type := mkDB {
  users : list Users;
  otp_codes : list Otp_codes;
  conversations : list Conversations;
  next_oid : ObjectId
}.

(** The state a handler runs in.  [w_clock] lists the readings the next
    calls of [datetime.now] will return, [w_time] is what the clock shows
    once they are used up; [w_entropy] lists the salts the next calls of
    the hasher will draw. *)
Record World : Type := mkWorld {
  w_db : DB;
  w_time : datetime;
  w_clock : list datetime;
  w_entropy : list string
}.

(** ** The handler monad *)

Definition M (A : Type) : Type := World → outcome A * World.

Global Instance M_ret : MRet M := λ A a w, (Ret a, w).

Global Instance M_bind : MBind M := λ A B f m w,
  match m w with
  | (Ret a, w') => f a w'
  | (Raise e, w') => (Raise e, w')
  end.

Definition raise {A} (e : exn) : M A := λ w, (Raise e, w).

Definition lift {A} (o : outcome A) : M A := λ w, (o, w).

(** [try: body except Exception: handler]; every member of [exn] derives
    from [Exception]. *)
Definition try_except {A} (body : M A) (handler : exn → M A) : M A := λ w,
  match body w with
  | (Ret a, w') => (Ret a, w')
  | (Raise e, w') => handler e w'
  end.

Definition get_db : M DB := λ w, (Ret (w_db w), w).

Definition set_db (d : DB) (w : World) : World :=
  mkWorld d (w_time w) (w_clock w) (w_entropy w).

Definition put_db (d : DB) : M unit := λ w, (Ret tt, set_db d w).

(** The wall clock shows instants a [datetime] can hold, the last day
    before [datetime.max] left out: a reading of the world outside that
    range is cut to it. *)
Definition clock_max : datetime := datetime_max - 86400000000.

Definition clock_clip (t : datetime) : datetime :=
  Z.max datetime_min (Z.min clock_max t).

(** [datetime.now(timezone.utc)] *)
Definition now : M datetime := λ w,
  match w_clock w with
  | [] => (Ret (clock_clip (w_time w)), w)
  | t :: ts => (Ret (clock_clip t), mkWorld (w_db w) t ts (w_entropy w))
  end.

(** The salt drawn by one call of the hasher. *)
Definition gensalt : M string := λ w,
  match w_entropy w with
  | [] => (Ret "", w)
  | s :: ss => (Ret s, mkWorld (w_db w) (w_time w) (w_clock w) ss)
  end.

(** What the next clock read returns, and the world after it. *)
Definition clock_reading (w : World) : datetime :=
  clock_clip (hd (w_time w) (w_clock w)).
Definition after_read (w : World) : World := (now w).2.

(** The reading of the clock after [n] earlier reads. *)
Definition nth_reading (n : nat) (w : World) : datetime :=
  clock_reading (Nat.iter n after_read w).

(** The salt the next hash draws, and the world after it. *)
Definition next_salt (w : World) : string := hd "" (w_entropy w).
Definition after_salt (w : World) : World := (gensalt w).2.

(** ** Queries on the store *)

(** Order of the store on an optional timestamp: a missing or null field
    sorts below every date. *)
Definition dt_ltb (a b : option datetime) : bool :=
  match a, b with
  | None, Some _ => true
  | Some x, Some y => (x <? y)%Z
  | _, None => false
  end.

Definition dt_le (a b : option datetime) : Prop := dt_ltb b a = false.

Global Instance dt_le_dec a b : Decision (dt_le a b).
Proof. unfold dt_le. apply _. Defined.

(** [db["users"].find_one({"email": e})]: the first match in natural
    order. *)
Definition users_find_one (e : string) (d : DB) : option Users :=
  List.find (λ u, bool_decide (u_email u = e)) (users d).

Definition db_add_user (u : Users) (d : DB) : DB :=
  mkDB (users d ++ [u]) (otp_codes d) (conversations d) (N.succ (next_oid d)).

Definition db_add_otp (r : Otp_codes) (d : DB) : DB :=
  mkDB (users d) (otp_codes d ++ [r]) (conversations d) (N.succ (next_oid d)).

(** A document as the store keeps it: dates in whole milliseconds. *)
Definition bson_user (u : Users) : Users :=
  mkUser (u__id u) (u_name u) (u_email u) (u_password u) (u_is_verified u)
         (bson_datetime <$> u_created_at u) (bson_datetime <$> u_updated_at u)
         (bson_datetime <$> u_last_login u).

Definition bson_otp (r : Otp_codes) : Otp_codes :=
  mkOtp (o__id r) (o_email r) (o_otp r) (bson_datetime <$> o_created_at r)
        (bson_datetime <$> o_expires_at r).

(** [insert_one]: the store assigns the [_id]. *)
Definition users_insert_one (doc : ObjectId → Users) : M unit :=
  d ← get_db;
  put_db (db_add_user (bson_user (doc (next_oid d))) d).

Definition otp_insert_one (doc : ObjectId → Otp_codes) : M unit :=
  d ← get_db;
  put_db (db_add_otp (bson_otp (doc (next_oid d))) d).

Fixpoint update_first {A} (p : A → bool) (f : A → A) (l : list A) : list A :=
  match l with
  | [] => []
  | x :: l' => if p x then f x :: l' else x :: update_first p f l'
  end.

Definition set_verified (t : datetime) (u : Users) : Users :=
  mkUser (u__id u) (u_name u) (u_email u) (u_password u) (Some true)
         (u_created_at u) (Some t) (u_last_login u).

(** [update_one({"email": e}, {"$set": {"is_verified": True,
    "updated_at": t}})]: changes the first match, if any. *)
Definition db_set_verified (e : string) (t : datetime) (d : DB) : DB :=
  mkDB (update_first (λ u, bool_decide (u_email u = e))
                     (set_verified t) (users d))
       (otp_codes d) (conversations d) (next_oid d).

Definition users_update_one_verified (e : string) (t : datetime) : M unit :=
  d ← get_db;
  put_db (db_set_verified e (bson_datetime t) d).

Definition pick_latest (best : option Otp_codes) (r : Otp_codes)
  : option Otp_codes :=
  match best with
  | None => Some r
  | Some b => if dt_ltb (o_created_at b) (o_created_at r) then Some r
              else Some b
  end.

(** [find_one({"email": e}, sort=[("created_at", -1)])]: a record for [e]
    of greatest [created_at]; among equals, the first in natural order. *)
Definition otp_find_one_latest (e : string) (d : DB) : option Otp_codes :=
  foldl pick_latest None (filter (λ r, o_email r = e) (otp_codes d)).

(** [find({"user_id": v}).sort("updated_at", -1)]: [a] may come before
    [b] when [b] was not updated after [a]. *)
Definition conv_newer_first (a b : Conversations) : Prop :=
  dt_le (c_updated_at b) (c_updated_at a).

Global Instance conv_newer_first_dec a b : Decision (conv_newer_first a b).
Proof. unfold conv_newer_first. apply _. Defined.

Definition conversations_find_sorted (v : jval) (d : DB)
  : list Conversations :=
  merge_sort conv_newer_first
    (filter (λ c, JStr (c_user_id c) = v) (conversations d)).

(** ** The libraries behind the helpers *)

(** PyJWT, as far as [main.py] calls it: [encode payload key algorithm]
    and [decode token key algorithms], the latter checked against the
    clock reading passed as last argument.  A payload holds JSON values:
    the [datetime] that [create_jwt] puts under [exp] is written there as
    the NumericDate the library makes of it. *)
Record JwtLib : Type := mkJwtLib {
  jwt_encode : payload → string → string → string;
  jwt_decode : string → string → list string → datetime → outcome payload
}.

(** What the hashing library checks of a secret before it hashes: at
    most 4096 characters, and no NUL character (bcrypt). *)
Definition secret_too_long (secret : string) : bool :=
  (4096 <? py_len secret)%nat.

Fixpoint secret_has_nul (secret : string) : bool :=
  match secret with
  | EmptyString => false
  | String c s' => bool_decide (c = "000"%char) || secret_has_nul s'
  end.

Definition secret_ok (secret : string) : bool :=
  negb (secret_too_long secret) && negb (secret_has_nul secret).

(** passlib's [CryptContext]: [ctx_hash] is the digest of a secret that
    passed the checks, under the salt drawn; [verify] may raise. *)
Record CryptContext : Type := mkCryptContext {
  ctx_hash : string → string → string;
  ctx_verify : string → string → outcome bool
}.

(** Module-level configuration of [main.py].  [JWT_SECRET] is a secret
    the JWT library takes as a key for HS256, as the default
    'dev-secret-key' is: [encode] returns a token for it. *)
Record Env : Type := mkEnv {
  JWT_SECRET : string;
  jwt : JwtLib;
  pwd_context : CryptContext
}.

Definition JWT_ALG : string := "HS256".

(** ** Request bodies and responses *)

Record SignupBody : Type := mkSignupBody {
  sb_name : string; sb_email : string; sb_password : string }.
Record LoginBody : Type := mkLoginBody {
  lb_email : string; lb_password : string }.
Record VerifyOtpBody : Type := mkVerifyOtpBody {
  vb_email : string; vb_otp : string }.
Record ResendOtpBody : Type := mkResendOtpBody { rb_email : string }.

Record UserPublic : Type := mkUserPublic {
  up_id : string; up_name : string; up_email : string }.

(** A conversation as returned: [_id] popped, [id = str(_id)] added. *)
Record ConversationItem : Type := mkConvItem {
  ci_id : string;
  ci_user_id : string;
  ci_title : string;
  ci_created_at : option datetime;
  ci_updated_at : option datetime;
  ci_message_count : Z
}.

Inductive Response : Type :=
  | SignupResponse (success : bool) (message : string) (email : string)
  | LoginOtpResponse (success verified : bool) (message : string)
  | LoginResponse (success verified : bool) (token : string)
                  (user : UserPublic)
  | VerifyResponse (success : bool) (token : string) (user : UserPublic)
  | ResendResponse (success : bool) (message : string)
  | ConversationsResponse (success : bool)
                          (conversations : list ConversationItem).

Definition user_public (u : Users) : UserPublic :=
  mkUserPublic (str_oid (u__id u)) (u_name u) (u_email u).

Definition conv_item (c : Conversations) : ConversationItem :=
  mkConvItem (str_oid (c__id c)) (c_user_id c) (c_title c)
             (c_created_at c) (c_updated_at c) (c_message_count c).

(** The claims [{"user_id": ..., "email": ...}] *)
Definition identity_claims (user_id email : string) : payload :=
  <["user_id" := JStr user_id]> (<["email" := JStr email]> ∅).

(** ** main.py *)

Section Main.
Variable env : Env.

(** Helpers *)

Definition hash_password (password : string) : M string :=
  if secret_too_long password
  then raise (ValueError "password exceeds maximum allowed size")
  else
    salt ← gensalt;
    if secret_has_nul password
    then raise (ValueError "bcrypt does not allow NULL bytes in password")
    else mret (ctx_hash (pwd_context env) password salt).

Definition verify_password (plain hashed : string) : M bool :=
  lift (ctx_verify (pwd_context env) plain hashed).

Definition create_jwt (p : payload) (expires_minutes : Z) : M string :=
  t ← now;
  exp ← lift (py_add_minutes t expires_minutes);
  let to_encode := <["exp" := JInt (numeric_date exp)]> p in
  mret (jwt_encode (jwt env) to_encode (JWT_SECRET env) JWT_ALG).

Definition default_expires_minutes : Z := 60 * 24.

Definition decode_jwt (token : string) : M payload :=
  t ← now;
  lift (jwt_decode (jwt env) token (JWT_SECRET env) [JWT_ALG] t).

Definition get_current_user (authorization : option string) : M payload :=
  match authorization with
  | None => raise (HTTPException 401 "Missing Authorization header")
  | Some "" => raise (HTTPException 401 "Missing Authorization header")
  | Some header =>
      try_except
        (match py_split header with
         | [scheme; token] =>
             if bool_decide (py_lower scheme ≠ "bearer")
             then raise (ValueError "Invalid auth scheme")
             else
               p ← decode_jwt token;
               let user_id := p !! "user_id" in
               let email := p !! "email" in
               if negb (py_truthy user_id) || negb (py_truthy email)
               then raise (ValueError "Invalid token payload")
               else mret p
         | _ => raise (ValueError "not enough or too many values to unpack")
         end)
        (λ _, raise (HTTPException 401 "Invalid or expired token"))
  end.

(** The block that stores an OTP entry; [signup], [login] and
    [resend_otp] each carry a copy of it.  The dictionary literal is
    evaluated left to right: the hash first, then two clock reads. *)
Definition store_otp (email : string) : M unit :=
  let raw_otp := "123456" in
  hashed ← hash_password raw_otp;
  created_at ← now;
  t ← now;
  expires_at ← lift (py_add_minutes t 5);
  otp_insert_one (λ i, mkOtp i email (Some hashed) (Some created_at)
                             (Some expires_at)).

(** Auth endpoints *)

Definition signup (body : SignupBody) : M Response :=
  d ← get_db;
  match users_find_one (sb_email body) d with
  | Some _ => raise (HTTPException 400 "Email already registered")
  | None =>
      hashed ← hash_password (sb_password body);
      created_at ← now;
      updated_at ← now;
      users_insert_one (λ i, mkUser i (sb_name body) (sb_email body)
                               (Some hashed) (Some false) (Some created_at)
                               (Some updated_at) None);;
      store_otp (sb_email body);;
      mret (SignupResponse true "OTP sent to email" (sb_email body))
  end.

Definition login (body : LoginBody) : M Response :=
  d ← get_db;
  match users_find_one (lb_email body) d with
  | None => raise (HTTPException 400 "Invalid credentials")
  | Some user =>
      ok ← verify_password (lb_password body)
                           (default "" (u_password user));
      if negb ok then raise (HTTPException 400 "Invalid credentials")
      else if negb (default false (u_is_verified user)) then
        store_otp (lb_email body);;
        mret (LoginOtpResponse true false "OTP sent to email")
      else
        token ← create_jwt (identity_claims (str_oid (u__id user))
                                            (u_email user))
                           default_expires_minutes;
        mret (LoginResponse true true token (user_public user))
  end.

Definition verify_otp (body : VerifyOtpBody) : M Response :=
  d ← get_db;
  match otp_find_one_latest (vb_email body) d with
  | None => raise (HTTPException 400 "OTP not found")
  | Some record =>
      expired ← match o_expires_at record with
                | None => mret false
                | Some expires_at => t ← now; mret (expires_at <? t)%Z
                end;
      if (expired : bool) then raise (HTTPException 400 "OTP expired")
      else
        ok ← verify_password (vb_otp body) (default "" (o_otp record));
        if negb ok then raise (HTTPException 400 "Invalid OTP")
        else
          t ← now;
          users_update_one_verified (vb_email body) t;;
          d' ← get_db;
          match users_find_one (vb_email body) d' with
          | None => raise (TypeError "'NoneType' object is not subscriptable")
          | Some user =>
              token ← create_jwt (identity_claims (str_oid (u__id user))
                                                  (u_email user))
                                 default_expires_minutes;
              mret (VerifyResponse true token (user_public user))
          end
  end.

Definition resend_otp (body : ResendOtpBody) : M Response :=
  d ← get_db;
  match users_find_one (rb_email body) d with
  | None => raise (HTTPException 400 "Email not registered")
  | Some _ =>
      store_otp (rb_email body);;
      mret (ResendResponse true "OTP sent")
  end.

(** Protected route.  [list_conversations] is the handler body; the
    framework runs the [Depends(get_current_user)] dependency on the
    request's Authorization header first. *)
Definition list_conversations (user : payload) : M Response :=
  match user !! "user_id" with
  | None => raise (KeyError "user_id")
  | Some v =>
      d ← get_db;
      let items := conversations_find_sorted v d in
      mret (ConversationsResponse true (conv_item <$> items))
  end.

Definition GET_conversations (authorization : option string) : M Response :=
  user ← get_current_user authorization;
  list_conversations user.

End Main.

(** ** Reference implementations of the library interfaces

    Stand-ins that the examples run on: an encoded value is an
    injective, white-space-free rendering of what went into it, not the
    libraries' own tokens and digests.  They keep the error behaviour of
    the libraries they stand for: expiry in whole seconds, the checks of
    a secret, the errors for a string that is no digest. *)

Fixpoint pos_to_str (p : positive) : string :=
  match p with
  | xH => "."
  | xO q => String "0" (pos_to_str q)
  | xI q => String "1" (pos_to_str q)
  end.

Fixpoint str_to_pos (s : string) : option positive :=
  match s with
  | EmptyString => None
  | String c s' =>
      if bool_decide (c = "."%char) then
        (if bool_decide (s' = "") then Some xH else None)
      else if bool_decide (c = "0"%char) then xO <$> str_to_pos s'
      else if bool_decide (c = "1"%char) then xI <$> str_to_pos s'
      else None
  end.

Definition wire {A} `{Countable A} (x : A) : string := pos_to_str (encode x).

Definition unwire {A} `{Countable A} (s : string) : option A :=
  str_to_pos s ≫= decode.

Fixpoint no_space (s : string) : bool :=
  match s with
  | EmptyString => true
  | String c s' => negb (py_isspace c) && no_space s'
  end.

(** The JWT codec: a token carries payload, key and algorithm; [decode]
    rejects an algorithm that is not allowed, a key that is not the
    signing key, and an [exp] claim, in whole seconds, that the clock
    has reached. *)
Definition ref_jwt_encode (p : payload) (key alg : string) : string :=
  wire (p, key, alg).

Definition ref_jwt_decode (token key : string) (algorithms : list string)
    (t : datetime) : outcome payload :=
  match unwire (A := payload * string * string) token with
  | None => Raise DecodeError
  | Some (p, k, alg) =>
      if bool_decide (alg ∈ algorithms) then
        if bool_decide (k = key) then
          match p !! "exp" with
          | None => Ret p
          | Some (JInt e) =>
              if (e * 1000000 <=? t)%Z then Raise ExpiredSignatureError
              else Ret p
          | Some _ => Raise DecodeError
          end
        else Raise InvalidSignatureError
      else Raise InvalidAlgorithmError
  end.

Definition ref_jwt : JwtLib := mkJwtLib ref_jwt_encode ref_jwt_decode.

(** The hashing context with the single scheme bcrypt: a digest is the
    scheme prefix followed by salt and secret; [verify] raises on a
    string that is no digest of the scheme and on a secret the library
    refuses. *)
Definition bcrypt_prefix : string := "$2b$12$".

Definition ref_hash (secret salt : string) : string :=
  bcrypt_prefix +:+ wire (salt, secret).

Fixpoint strip_prefix (pre s : string) : option string :=
  match pre with
  | EmptyString => Some s
  | String a pre' =>
      match s with
      | EmptyString => None
      | String b s' => if bool_decide (a = b) then strip_prefix pre' s'
                       else None
      end
  end.

Definition bcrypt_idents : list string :=
  ["$2$"; "$2a$"; "$2x$"; "$2y$"; "$2b$"].

Definition ref_identify (hashed : string) : bool :=
  existsb (λ ident, bool_decide (is_Some (strip_prefix ident hashed)))
          bcrypt_idents.

Definition ref_verify (secret hashed : string) : outcome bool :=
  if ref_identify hashed then
    if secret_too_long secret
    then Raise (ValueError "password exceeds maximum allowed size")
    else
      match strip_prefix bcrypt_prefix hashed
            ≫= unwire (A := string * string) with
      | Some (salt, s) =>
          if secret_has_nul secret
          then Raise (ValueError "bcrypt does not allow NULL bytes in password")
          else Ret (bool_decide (s = secret))
      | None => Raise (ValueError "malformed bcrypt hash")
      end
  else Raise (ValueError "hash could not be identified").

Definition ref_pwd_context : CryptContext := mkCryptContext ref_hash ref_verify.

Definition ref_env : Env := mkEnv "dev-secret-key" ref_jwt ref_pwd_context.

(** The registered claim names the library checks besides [exp]. *)
Definition registered_claims : list string :=
  ["iss"; "sub"; "aud"; "nbf"; "iat"; "jti"].

Definition private_claims (p : payload) : Prop :=
  ∀ k, k ∈ registered_claims → p !! k = None.

(** What the handlers rely on from the JWT library.  [exp] is a
    NumericDate, in whole seconds; the clock reading is in microseconds;
    a token is refused from the instant [exp] on.  What [decode] returns
    for a token is the payload that was encoded, under an allowed
    algorithm and before [exp]; a payload without registered claims of
    its own is returned before [exp] under the key it was signed with.
    Nothing is assumed about which other keys verify a signature. *)
Record JwtLaws (lib : JwtLib) : Prop := mkJwtLaws {
  jwt_decode_sound : ∀ p key key' alg algorithms t q,
    jwt_decode lib (jwt_encode lib p key alg) key' algorithms t = Ret q →
    q = p ∧ alg ∈ algorithms
    ∧ ∀ e, p !! "exp" = Some (JInt e) → (t < e * 1000000)%Z;
  jwt_decode_encode : ∀ p key algorithms t e,
    JWT_ALG ∈ algorithms →
    p !! "exp" = Some (JInt e) → (t < e * 1000000)%Z →
    private_claims p →
    jwt_decode lib (jwt_encode lib p key JWT_ALG) key algorithms t = Ret p;
  jwt_decode_expired : ∀ p key algorithms t e,
    JWT_ALG ∈ algorithms →
    p !! "exp" = Some (JInt e) → (e * 1000000 ≤ t)%Z →
    private_claims p →
    jwt_decode lib (jwt_encode lib p key JWT_ALG) key algorithms t
    = Raise ExpiredSignatureError;
  jwt_encode_compact : ∀ p key alg,
    jwt_encode lib p key alg ≠ "" ∧ no_space (jwt_encode lib p key alg) = true
}.

(** What the handlers rely on from the hashing context: a secret that
    passed the checks verifies against its own digest.  Nothing is
    assumed about one secret against the digest of another: bcrypt reads
    the first 72 bytes of a secret only. *)
Record HashLaws (ctx : CryptContext) : Prop := mkHashLaws {
  ctx_verify_hash : ∀ secret salt,
    secret_ok secret = true →
    ctx_verify ctx secret (ctx_hash ctx secret salt) = Ret true
}.

(** ** Notions used in the statements, and the data of the examples *)

Definition unknown_hash : exn := ValueError "hash could not be identified".

Definition unauthorized : exn := HTTPException 401 "Invalid or expired token".
Definition missing_auth : exn :=
  HTTPException 401 "Missing Authorization header".

Definition empty_db : DB := mkDB [] [] [] 0%N.

Definition demo_world (clock : list datetime) : World :=
  mkWorld empty_db 1000 clock ["salt-a"; "salt-b"; "salt-c"].

(** Four clock readings that do not fall on whole milliseconds. *)
Definition demo_clock : list datetime := [10250; 20500; 30750; 40999].

(** The claims of the example token: issued at 1000 microseconds for
    24 hours, so [exp] is 86400 seconds. *)
Definition demo_claims : payload :=
  <["exp" := JInt 86400]> (identity_claims "7" "a@x.com").

Definition demo_token : string :=
  jwt_encode ref_jwt demo_claims "dev-secret-key" JWT_ALG.

(** The record [store_otp] appends when run in [w]. *)
Definition otp_entry (env : Env) (email : string) (w : World) : Otp_codes :=
  mkOtp (next_oid (w_db w)) email
        (Some (ctx_hash (pwd_context env) "123456" (next_salt w)))
        (Some (bson_datetime (nth_reading 0 w)))
        (Some (bson_datetime (nth_reading 1 w + timedelta_minutes 5))).

Definition after_store_otp (env : Env) (email : string) (w : World) : World :=
  set_db (db_add_otp (otp_entry env email w) (w_db w))
         (after_read (after_read (after_salt w))).

Definition signup_user (env : Env) (body : SignupBody) (w : World) : Users :=
  mkUser (next_oid (w_db w)) (sb_name body) (sb_email body)
         (Some (ctx_hash (pwd_context env) (sb_password body) (next_salt w)))
         (Some false) (Some (bson_datetime (nth_reading 0 w)))
         (Some (bson_datetime (nth_reading 1 w))) None.

(** The world in which [signup] reaches its [store_otp] block. *)
Definition signup_stored_user (env : Env) (body : SignupBody) (w : World) : World :=
  set_db (db_add_user (signup_user env body w) (w_db w))
         (after_read (after_read (after_salt w))).

(** [r] is a most recently created challenge for [e] in [d]. *)
Definition latest_for (e : string) (d : DB) (r : Otp_codes) : Prop :=
  r ∈ otp_codes d ∧ o_email r = e
  ∧ ∀ r', r' ∈ otp_codes d → o_email r' = e →
          dt_le (o_created_at r') (o_created_at r).

(** The guard of [verify_otp]: a record with an [expires_at] is rejected
    when that time is strictly before the clock reading. *)
Definition otp_expired (record : Otp_codes) (w : World) : bool :=
  match o_expires_at record with
  | None => false
  | Some expires_at => (expires_at <? clock_reading w)%Z
  end.

(** The clock is read for the guard only if the record has an
    [expires_at]. *)
Definition after_expiry_check (record : Otp_codes) (w : World) : World :=
  match o_expires_at record with
  | None => w
  | Some _ => after_read w
  end.

(** The world in which [verify_otp] looks the user up again. *)
Definition after_mark_verified (email : string) (record : Otp_codes)
    (w : World) : World :=
  let w1 := after_expiry_check record w in
  set_db (db_set_verified email (bson_datetime (clock_reading w1)) (w_db w))
         (after_read w1).

Inductive Request : Type :=
  | POST_signup (body : SignupBody)
  | POST_login (body : LoginBody)
  | POST_verify_otp (body : VerifyOtpBody)
  | POST_resend_otp (body : ResendOtpBody)
  | GET_chat_conversations (authorization : option string).

Definition handle (env : Env) (r : Request) : M Response :=
  match r with
  | POST_signup body => signup env body
  | POST_login body => login env body
  | POST_verify_otp body => verify_otp env body
  | POST_resend_otp body => resend_otp env body
  | GET_chat_conversations authorization => GET_conversations env authorization
  end.

(** The stores the handlers can produce from the empty one when requests
    are taken one at a time, whatever the clock and the entropy source
    do in between. *)
Inductive reachable (env : Env) : DB → Prop :=
  | reachable_empty : reachable env empty_db
  | reachable_step (r : Request) (w : World) :
      reachable env (w_db w) → reachable env (w_db (handle env r w).2).

(** Every stored challenge belongs to a stored user. *)
Definition otp_owned (d : DB) : Prop :=
  ∀ r, r ∈ otp_codes d → is_Some (users_find_one (o_email r) d).

Definition verify_otp_succeeds (env : Env) (body : VerifyOtpBody)
    (w : World) : Prop :=
  ∃ resp w', verify_otp env body w = (Ret resp, w').

(** Acceptance as the handler decides it: the most recently created
    challenge for the email is not past its expiry (the expiry instant
    itself still counts) and the candidate verifies against its hash. *)
Definition otp_accepts (env : Env) (body : VerifyOtpBody) (w : World) : Prop :=
  ∃ record,
    otp_find_one_latest (vb_email body) (w_db w) = Some record
    ∧ (∀ e, o_expires_at record = Some e → clock_reading w ≤ e)
    ∧ ctx_verify (pwd_context env) (vb_otp body) (default "" (o_otp record))
      = Ret true.

(** Acceptance in the words of the specification: a challenge is expired
    as soon as the current time is greater than or equal to its expiry. *)
Definition spec_otp_accepts (env : Env) (body : VerifyOtpBody) (w : World)
  : Prop :=
  ∃ record,
    otp_find_one_latest (vb_email body) (w_db w) = Some record
    ∧ (∀ e, o_expires_at record = Some e → clock_reading w < e)
    ∧ ctx_verify (pwd_context env) (vb_otp body) (default "" (o_otp record))
      = Ret true.

(** Expiry in the words of the specification: verification at or after
    the expiry of the challenge fails with "OTP expired". *)
Definition spec_expired_from_expiry (env : Env) (body : VerifyOtpBody)
    (w : World) : Prop :=
  ∀ record e,
    otp_find_one_latest (vb_email body) (w_db w) = Some record →
    o_expires_at record = Some e →
    e ≤ clock_reading w →
    (verify_otp env body w).1 = Raise (HTTPException 400 "OTP expired").

Definition demo_signup : SignupBody := mkSignupBody "A" "a@x.com" "p1".

(** The store after one signup at [demo_clock]: the store keeps whole
    milliseconds, so the user is created at 10 ms and updated at 20 ms,
    and the challenge is created at 30 ms and expires at 40 ms + 5
    minutes. *)
Definition demo_db : DB :=
  w_db (handle ref_env (POST_signup demo_signup) (demo_world demo_clock)).2.

Definition demo_expiry : datetime := 40000 + timedelta_minutes 5.

Definition demo_world_at (t : datetime) : World :=
  mkWorld demo_db 0 [t; t + 1; t + 2; t + 3] ["salt-d"; "salt-e"].

Definition demo_verify : VerifyOtpBody := mkVerifyOtpBody "a@x.com" "123456".

Definition demo_login_unknown : LoginBody := mkLoginBody "nobody@x.com" "p1".
Definition demo_login_wrong : LoginBody := mkLoginBody "a@x.com" "not-p1".

(** Two passwords the hasher refuses: one with a NUL character, one of
    4097 characters. *)
Definition nul_password : string := String "p" (String "000" "1").

Fixpoint py_repeat (c : ascii) (n : nat) : string :=
  match n with
  | O => EmptyString
  | S n' => String c (py_repeat c n')
  end.

Definition long_password : string := py_repeat "a" 4097.
Definition demo_resend : ResendOtpBody := mkResendOtpBody "a@x.com".

(** One challenge for [email] was appended to the store [d], giving
    [d']: created at the clock reading [created], expiring five minutes
    after the clock reading [t], both cut to whole milliseconds; the
    challenges stored before are as they were. *)
Definition otp_appended (email : string) (created t : datetime)
    (d d' : DB) : Prop :=
  ∃ r, otp_codes d' = otp_codes d ++ [r]
       ∧ o_email r = email
       ∧ o_created_at r = Some (bson_datetime created)
       ∧ o_expires_at r = Some (bson_datetime (t + timedelta_minutes 5)).

(** Issuance in the words of the specification: the appended challenge
    expires exactly five minutes after its creation timestamp. *)
Definition spec_otp_appended (email : string) (d d' : DB) : Prop :=
  ∃ r created,
    otp_codes d' = otp_codes d ++ [r]
    ∧ o_email r = email
    ∧ o_created_at r = Some created
    ∧ o_expires_at r = Some (created + timedelta_minutes 5).

(** A store whose only user has no [password] field, and whose only
    challenge has no [otp] field. *)
Definition db_without_hashes : DB :=
  mkDB [mkUser 0%N "A" "a@x.com" None (Some true) None None None]
       [mkOtp 1%N "a@x.com" None (Some 30000) (Some demo_expiry)]
       [] 2%N.

(** A store whose hashes are not digests of the scheme. *)
Definition db_with_plaintext : DB :=
  mkDB [mkUser 0%N "A" "a@x.com" (Some "p1") (Some true) None None None]
       [mkOtp 1%N "a@x.com" (Some "123456") (Some 30000) (Some demo_expiry)]
       [] 2%N.

Definition world_of (d : DB) : World := mkWorld d 100 [] [].

Definition demo_login : LoginBody := mkLoginBody "a@x.com" "p1".

Definition item_newer_first (a b : ConversationItem) : Prop :=
  dt_le (ci_updated_at b) (ci_updated_at a).

Definition demo_conversations : list Conversations :=
  [mkConv 10%N "7" "first" (Some 1000) (Some 5000) 2;
   mkConv 11%N "8" "other user" (Some 2000) (Some 9000) 1;
   mkConv 12%N "7" "second" (Some 3000) (Some 8000) 4;
   mkConv 13%N "7" "never updated" (Some 4000) None 0].

Definition demo_chat_world : World :=
  mkWorld (mkDB [] [] demo_conversations 14%N) 0 [5000] [].

(** Drops the token of a response, to compare the rest literally. *)
Definition without_token (o : outcome Response) : outcome Response :=
  match o with
  | Ret (LoginResponse s v _ u) => Ret (LoginResponse s v "" u)
  | Ret (VerifyResponse s _ u) => Ret (VerifyResponse s "" u)
  | other => other
  end.

Definition demo_user_public : UserPublic := mkUserPublic "0" "A" "a@x.com".

(** ** Further notions: headers, documents and steps *)

Fixpoint all_space (s : string) : bool :=
  match s with
  | EmptyString => true
  | String c s' => py_isspace c && all_space s'
  end.

(** A claims dictionary that carries neither [user_id] nor [email]. *)
Definition demo_role_claims : payload := <["role" := JStr "admin"]> ∅.

(** A store whose user has the right hash but no [is_verified] field. *)
Definition db_without_flag : DB :=
  mkDB [mkUser 0%N "A" "a@x.com" (Some (ref_hash "p1" "salt-a")) None
               (Some 10000) (Some 20000) None]
       [] [] 1%N.

(** A store with a challenge for an email that has no user, and one
    whose challenge has no [expires_at]. *)
Definition db_orphan_challenge : DB :=
  mkDB []
       [mkOtp 0%N "a@x.com" (Some (ref_hash "123456" "salt-a")) (Some 30000)
              (Some demo_expiry)]
       [] 1%N.

Definition db_without_expiry : DB :=
  mkDB [mkUser 0%N "A" "a@x.com" (Some (ref_hash "p1" "salt-a")) (Some false)
               (Some 10000) (Some 20000) None]
       [mkOtp 1%N "a@x.com" (Some (ref_hash "123456" "salt-b")) (Some 30000) None]
       [] 2%N.

Definition demo_verify_wrong : VerifyOtpBody :=
  mkVerifyOtpBody "a@x.com" "000000".

(** A user document as [signup] writes it: every field the handlers
    read is there, and [last_login] is not. *)
Definition user_complete (u : Users) : Prop :=
  is_Some (u_password u) ∧ is_Some (u_is_verified u)
  ∧ is_Some (u_created_at u) ∧ is_Some (u_updated_at u)
  ∧ u_last_login u = None.

(** A challenge as the [store_otp] block writes it: the hash of the
    fixed code under some salt, and both timestamps. *)
Definition otp_complete (env : Env) (r : Otp_codes) : Prop :=
  (∃ salt, o_otp r = Some (ctx_hash (pwd_context env) "123456" salt))
  ∧ is_Some (o_created_at r) ∧ is_Some (o_expires_at r).

(** What one request can do to the store: nothing; append a challenge
    for a stored user (login, resend); append a user and its challenge
    (signup); mark the first user of an email verified (verify_otp). *)
Inductive db_step (env : Env) : Request → DB → DB → Prop :=
  | step_none (r : Request) (d : DB) : db_step env r d d
  | step_issue (r : Request) (x : Otp_codes) (d : DB) :
      (∀ body, r ≠ POST_verify_otp body) →
      is_Some (users_find_one (o_email x) d) →
      otp_complete env x →
      db_step env r d (db_add_otp x d)
  | step_signup (body : SignupBody) (u : Users) (x : Otp_codes) (d : DB) :
      users_find_one (sb_email body) d = None →
      u_email u = sb_email body →
      user_complete u →
      u_is_verified u = Some false →
      o_email x = sb_email body →
      otp_complete env x →
      db_step env (POST_signup body) d (db_add_otp x (db_add_user u d))
  | step_verify (body : VerifyOtpBody) (t : datetime) (d : DB) :
      db_step env (POST_verify_otp body) d
              (db_set_verified (vb_email body) t d).

(** What the handlers keep true of the store. *)
Definition store_invariant (env : Env) (d : DB) : Prop :=
  NoDup (u_email <$> users d)
  ∧ Forall user_complete (users d)
  ∧ Forall (otp_complete env) (otp_codes d)
  ∧ conversations d = []
  ∧ otp_owned d.

(** The fields of a user that no handler rewrites. *)
Definition user_identity (u : Users)
  : ObjectId * string * string * option string * option datetime :=
  (u__id u, u_name u, u_email u, u_password u, u_created_at u).

Definition is_verified_user (u : Users) : Prop := u_is_verified u = Some true.

Global Instance is_verified_user_dec u : Decision (is_verified_user u).
Proof. unfold is_verified_user. apply _. Defined.

(** ** The diagnostic route [GET /test]

    The string constants of the route are kept as they are in the
    source file (UTF-8); the cut [str(e)[:50]] is taken on the
    characters of the error message. *)

(** What the route sees of the module-level [db]: the [name] attribute
    (absent, present, or raising when read) and the outcome of
    [list_collection_names], an error standing for its [str(e)]. *)
Record DbHandle : Type := mkDbHandle {
  dh_name : string + option string;
  dh_list_collection_names : string + list string
}.

Record TestResponse : Type := mkTestResponse {
  tr_backend : string;
  tr_database : string;
  tr_database_url : option string;
  tr_database_name : option string;
  tr_connection_status : string;
  tr_collections : list string
}.

(** [os.getenv(key)] used as a condition: set and not empty. *)
Definition getenv_truthy (environ : gmap string string) (key : string) : bool :=
  match environ !! key with
  | Some v => negb (bool_decide (v = ""))
  | None => false
  end.

Definition with_database (v : string) (r : TestResponse) : TestResponse :=
  mkTestResponse (tr_backend r) v (tr_database_url r) (tr_database_name r)
                 (tr_connection_status r) (tr_collections r).

Definition with_database_url (v : string) (r : TestResponse) : TestResponse :=
  mkTestResponse (tr_backend r) (tr_database r) (Some v) (tr_database_name r)
                 (tr_connection_status r) (tr_collections r).

Definition with_database_name (v : string) (r : TestResponse) : TestResponse :=
  mkTestResponse (tr_backend r) (tr_database r) (tr_database_url r) (Some v)
                 (tr_connection_status r) (tr_collections r).

Definition with_connection_status (v : string) (r : TestResponse)
  : TestResponse :=
  mkTestResponse (tr_backend r) (tr_database r) (tr_database_url r)
                 (tr_database_name r) v (tr_collections r).

Definition with_collections (v : list string) (r : TestResponse)
  : TestResponse :=
  mkTestResponse (tr_backend r) (tr_database r) (tr_database_url r)
                 (tr_database_name r) (tr_connection_status r) v.

Definition test_database (db : option DbHandle)
    (environ : gmap string string) : TestResponse :=
  let response :=
    mkTestResponse "✅ Running" "❌ Not Available" None None
                   "Not Connected" [] in
  let response :=
    match db with
    | Some h =>
        let response := with_database "✅ Available" response in
        let response := with_database_url "✅ Configured" response in
        match dh_name h with
        | inl msg =>
            with_database ("❌ Error: " +:+ py_str_take 50 msg) response
        | inr name =>
            let response :=
              with_database_name (default "✅ Connected" name) response in
            let response := with_connection_status "Connected" response in
            match dh_list_collection_names h with
            | inr collections =>
                let response :=
                  with_collections (take 10 collections) response in
                with_database "✅ Connected & Working" response
            | inl msg =>
                with_database
                  ("⚠️  Connected but Error: " +:+ py_str_take 50 msg)
                  response
            end
        end
    | None => with_database "⚠️  Available but not initialized" response
    end in
  let response :=
    with_database_url
      (if getenv_truthy environ "DATABASE_URL" then "✅ Set" else "❌ Not Set")
      response in
  let response :=
    with_database_name
      (if getenv_truthy environ "DATABASE_NAME" then "✅ Set"
       else "❌ Not Set")
      response in
  response.

Definition demo_db_handle : DbHandle :=
  mkDbHandle (inr (Some "vcet"))
    (inr ["users"; "otp_codes"; "conversations"; "messages"; "shares";
          "liked_messages"; "disliked_messages"; "c8"; "c9"; "c10"; "c11";
          "c12"]).

(** Acceptance in the words of the specification: a token issued for
    [user_id] and [email] in [w0] with [ttl] minutes authenticates, in a
    world whose clock is before issue time plus ttl, as that identity. *)
Definition spec_token_accepted (env : Env) (user_id email : string) (ttl : Z)
    (w0 w : World) : Prop :=
  ∀ token w0',
    create_jwt env (identity_claims user_id email) ttl w0 = (Ret token, w0') →
    clock_reading w < clock_reading w0 + timedelta_minutes ttl →
    ∃ p, (get_current_user env (Some ("Bearer " +:+ token)) w).1 = Ret p
         ∧ p !! "user_id" = Some (JStr user_id)
         ∧ p !! "email" = Some (JStr email).

(** * Properties *)

(** ** Strings *)

Lemma app_cons (c : ascii) (s t : string) :
  String c s +:+ t = String c (s +:+ t).
Proof. reflexivity. Qed.

Lemma app_empty_l (t : string) : "" +:+ t = t.
Proof. reflexivity. Qed.

Lemma app_empty_r (s : string) : s +:+ "" = s.
Proof. induction s as [|c s IH]; [done | by rewrite app_cons, IH]. Qed.

Lemma snoc_char_app (w : string) (c : ascii) (s : string) :
  snoc_char w c +:+ s = w +:+ String c s.
Proof.
  unfold snoc_char. induction w as [|a w IH]; [done|].
  by rewrite !app_cons, IH.
Qed.


Lemma py_split_from_no_space (s word : string) :
  no_space s = true → word +:+ s ≠ "" →
  py_split_from word s = [word +:+ s].
Proof.
  revert word. induction s as [|c s IH]; intros word Hs Hne; simpl in *.
  - rewrite app_empty_r in *. by rewrite bool_decide_eq_false_2.
  - apply andb_true_iff in Hs as [Hc Hs].
    apply negb_true_iff in Hc. rewrite Hc.
    rewrite IH, snoc_char_app; [done | done |].
    rewrite snoc_char_app. by destruct word.
Qed.

Lemma py_split_word (s : string) :
  no_space s = true → s ≠ "" → py_split s = [s].
Proof. intros Hs Hne. by apply (py_split_from_no_space s ""). Qed.

Lemma py_split_bearer (token : string) :
  no_space token = true → token ≠ "" →
  py_split ("Bearer " +:+ token) = ["Bearer"; token].
Proof.
  intros Hs Hne. unfold py_split. rewrite !app_cons, app_empty_l. simpl.
  f_equal. by apply py_split_word.
Qed.

(** ** The reference libraries satisfy the laws *)

Lemma str_to_pos_to_str (p : positive) : str_to_pos (pos_to_str p) = Some p.
Proof. induction p as [q IH|q IH|]; simpl; [by rewrite IH..|done]. Qed.

Lemma pos_to_str_nonempty (p : positive) : pos_to_str p ≠ "".
Proof. by destruct p. Qed.

Lemma pos_to_str_no_space (p : positive) : no_space (pos_to_str p) = true.
Proof. induction p as [q IH|q IH|]; simpl; [by rewrite IH..|done]. Qed.

Lemma unwire_wire {A} `{Countable A} (x : A) : unwire (wire x) = Some x.
Proof.
  unfold unwire, wire. rewrite str_to_pos_to_str. simpl.
  apply decode_encode.
Qed.

Lemma ref_jwt_laws : JwtLaws ref_jwt.
Proof.
  split; simpl; unfold ref_jwt_decode, ref_jwt_encode.
  - intros p key key' alg algs t q. rewrite unwire_wire.
    case_bool_decide as Halg; [|done].
    case_bool_decide as Hkey; [|done].
    destruct (p !! "exp") as [[| |e|]|] eqn:Hexp; try done.
    + destruct (Z.leb_spec (e * 1000000) t); [done|].
      intros [= <-]. split_and!; try done. by intros ? [= <-].
    + intros [= <-]. by split_and!.
  - intros p key algs t e Halg Hexp Hlt _. rewrite unwire_wire.
    rewrite !bool_decide_eq_true_2 by done. rewrite Hexp.
    by destruct (Z.leb_spec (e * 1000000) t); [lia|].
  - intros p key algs t e Halg Hexp Hle _. rewrite unwire_wire.
    rewrite !bool_decide_eq_true_2 by done. rewrite Hexp.
    by destruct (Z.leb_spec (e * 1000000) t); [|lia].
  - intros p key alg. split; [apply pos_to_str_nonempty|].
    apply pos_to_str_no_space.
Qed.

Lemma secret_ok_split (secret : string) :
  secret_ok secret = true →
  secret_too_long secret = false ∧ secret_has_nul secret = false.
Proof.
  unfold secret_ok. intros [H1 H2]%andb_true_iff.
  by apply negb_true_iff in H1; apply negb_true_iff in H2.
Qed.

Lemma ref_hash_laws : HashLaws ref_pwd_context.
Proof.
  split; simpl. intros secret salt [Hlen Hnul]%secret_ok_split.
  unfold ref_verify, ref_hash, bcrypt_prefix.
  rewrite !app_cons, app_empty_l. simpl. rewrite Hlen, Hnul.
  rewrite unwire_wire. simpl. by rewrite bool_decide_eq_true_2.
Qed.

(** ** The monad's primitives *)

Ltac unfold_M :=
  unfold mbind, M_bind, mret, M_ret, raise, lift, try_except,
         get_db, put_db in *.

Lemma now_eq (w : World) : now w = (Ret (clock_reading w), after_read w).
Proof.
  unfold after_read, clock_reading, now. by destruct (w_clock w).
Qed.

Lemma clock_reading_range (w : World) :
  datetime_min ≤ clock_reading w ≤ clock_max.
Proof.
  unfold clock_reading, clock_clip, clock_max, datetime_min, datetime_max.
  lia.
Qed.

(** Adding up to a day to a clock reading stays in range. *)
Lemma py_add_minutes_day (t : datetime) (m : Z) :
  datetime_min ≤ t ≤ clock_max → 0 ≤ m ≤ 60 * 24 →
  py_add_minutes t m = Ret (t + timedelta_minutes m).
Proof.
  unfold py_add_minutes, timedelta_minutes, timedelta_min, timedelta_max,
    clock_max, datetime_min, datetime_max.
  intros Ht Hm.
  rewrite (proj2 (andb_true_iff _ _)) by (split; apply Z.leb_le; lia).
  by rewrite (proj2 (andb_true_iff _ _)) by (split; apply Z.leb_le; lia).
Qed.

Lemma after_read_db (w : World) : w_db (after_read w) = w_db w.
Proof. unfold after_read, now. by destruct (w_clock w). Qed.


(** ** Session guard *)

Section SessionGuard.
Variable env : Env.

Lemma create_jwt_eq (p : payload) (minutes : Z) (w : World) :
  create_jwt env p minutes w =
  match py_add_minutes (clock_reading w) minutes with
  | Ret exp =>
      (Ret (jwt_encode (jwt env) (<["exp" := JInt (numeric_date exp)]> p)
                       (JWT_SECRET env) JWT_ALG),
       after_read w)
  | Raise e => (Raise e, after_read w)
  end.
Proof.
  unfold create_jwt. unfold_M. rewrite now_eq.
  by destruct (py_add_minutes _ _).
Qed.

Lemma create_jwt_out (p : payload) (minutes : Z) (w : World) :
  create_jwt env p minutes w
  = ((create_jwt env p minutes w).1, (create_jwt env p minutes w).2).
Proof. by destruct (create_jwt env p minutes w). Qed.

(** With the default of 24 hours the sum is in range. *)
Lemma create_jwt_default_eq (p : payload) (w : World) :
  create_jwt env p default_expires_minutes w =
  (Ret (jwt_encode (jwt env)
          (<["exp" := JInt (numeric_date
                              (clock_reading w + timedelta_minutes (60 * 24)))]>
             p)
          (JWT_SECRET env) JWT_ALG),
   after_read w).
Proof.
  rewrite create_jwt_eq. unfold default_expires_minutes.
  by rewrite py_add_minutes_day by (apply clock_reading_range || lia).
Qed.

Lemma decode_jwt_eq (token : string) (w : World) :
  decode_jwt env token w =
  (jwt_decode (jwt env) token (JWT_SECRET env) [JWT_ALG] (clock_reading w),
   after_read w).
Proof. unfold decode_jwt. unfold_M. by rewrite now_eq. Qed.

(** The guard in normal form: which outcome each header gets. *)
Lemma get_current_user_eq (header : string) (w : World) :
  header ≠ "" →
  get_current_user env (Some header) w =
  match py_split header with
  | [scheme; token] =>
      if bool_decide (py_lower scheme = "bearer") then
        match jwt_decode (jwt env) token (JWT_SECRET env) [JWT_ALG]
                         (clock_reading w) with
        | Ret p =>
            if py_truthy (p !! "user_id") && py_truthy (p !! "email")
            then (Ret p, after_read w)
            else (Raise unauthorized, after_read w)
        | Raise _ => (Raise unauthorized, after_read w)
        end
      else (Raise unauthorized, w)
  | _ => (Raise unauthorized, w)
  end.
Proof.
  intros Hne. destruct header as [|c header]; [done|].
  unfold get_current_user.
  generalize (py_split (String c header)). intros parts.
  unfold try_except.
  destruct parts as [|scheme [|token [|extra parts]]]; try done.
  case_bool_decide as Hs.
  - by rewrite bool_decide_eq_false_2.
  - rewrite bool_decide_eq_true_2 by done.
    unfold mbind, M_bind. rewrite decode_jwt_eq.
    destruct (jwt_decode _ _ _ _ _) as [p|e]; [|done].
    by destruct (py_truthy (p !! "user_id")), (py_truthy (p !! "email")).
Qed.

Lemma get_current_user_missing (w : World) :
  get_current_user env None w = (Raise missing_auth, w)
  ∧ get_current_user env (Some "") w = (Raise missing_auth, w).
Proof. done. Qed.

(** Whatever the guard raises is a 401. *)
Lemma get_current_user_raises (authorization : option string)
    (w w' : World) (e : exn) :
  get_current_user env authorization w = (Raise e, w') →
  e = missing_auth ∨ e = unauthorized.
Proof.
  destruct authorization as [header|]; [|intros [= <- _]; by left].
  destruct (decide (header = "")) as [->|Hne]; [intros [= <- _]; by left|].
  rewrite get_current_user_eq by done. intros Heq. right.
  repeat case_match; by simplify_eq.
Qed.

(** What the guard returns was decoded from the second word of a
    [bearer] header and carries both claims. *)
Lemma get_current_user_returns (authorization : option string)
    (w w' : World) (p : payload) :
  get_current_user env authorization w = (Ret p, w') →
  ∃ header scheme token,
    authorization = Some header ∧ py_split header = [scheme; token]
    ∧ py_lower scheme = "bearer"
    ∧ jwt_decode (jwt env) token (JWT_SECRET env) [JWT_ALG]
                 (clock_reading w) = Ret p
    ∧ py_truthy (p !! "user_id") = true ∧ py_truthy (p !! "email") = true
    ∧ w' = after_read w.
Proof.
  destruct authorization as [header|]; [|done].
  destruct (decide (header = "")) as [->|Hne]; [done|].
  rewrite get_current_user_eq by done. intros Heq.
  exists header.
  destruct (py_split header) as [|scheme [|token [|extra parts]]]; try done.
  exists scheme, token.
  case_bool_decide; [|done].
  destruct (jwt_decode _ _ _ _ _) as [q|e] eqn:Hdec; [|done].
  destruct (py_truthy (q !! "user_id")) eqn:Hu; [|done].
  destruct (py_truthy (q !! "email")) eqn:He; [|done].
  simpl in Heq. by simplify_eq.
Qed.

End SessionGuard.

Lemma bearer_header_nonempty (token : string) : "Bearer " +:+ token ≠ "".
Proof. done. Qed.

Lemma identity_claims_exp (user_id email : string) (e : Z) :
  let p := <["exp" := JInt e]> (identity_claims user_id email) in
  p !! "exp" = Some (JInt e)
  ∧ p !! "user_id" = Some (JStr user_id)
  ∧ p !! "email" = Some (JStr email).
Proof. unfold identity_claims. by simplify_map_eq. Qed.

Lemma py_truthy_str (s : string) : s ≠ "" → py_truthy (Some (JStr s)) = true.
Proof. intros Hne. simpl. by rewrite bool_decide_eq_false_2. Qed.

(** ** Concrete data the examples run on *)

Lemma py_add_minutes_Ret (t : datetime) (m : Z) (r : datetime) :
  py_add_minutes t m = Ret r →
  r = t + timedelta_minutes m ∧ datetime_min ≤ r ≤ datetime_max.
Proof.
  unfold py_add_minutes.
  destruct (_ && _); [|done].
  destruct (_ && _) eqn:Hr; [|done].
  apply andb_true_iff in Hr as [?%Z.leb_le ?%Z.leb_le].
  intros [= <-]. lia.
Qed.

Lemma identity_claims_private (user_id email : string) (e : Z) :
  private_claims (<["exp" := JInt e]> (identity_claims user_id email)).
Proof.
  intros k Hk. unfold registered_claims, identity_claims in *.
  repeat (apply elem_of_cons in Hk as [->|Hk]; [by simplify_map_eq|]).
  by apply elem_of_nil in Hk.
Qed.

Lemma get_current_user_decode_raises (env : Env) (header scheme tok : string)
    (w : World) :
  py_split header = [scheme; tok] →
  (∀ q, jwt_decode (jwt env) tok (JWT_SECRET env) [JWT_ALG] (clock_reading w)
        ≠ Ret q) →
  (get_current_user env (Some header) w).1 = Raise unauthorized.
Proof.
  intros Hsplit Hdec.
  assert (header ≠ "") as Hh by (by intros ->).
  rewrite get_current_user_eq, Hsplit by done.
  case_bool_decide; [|done].
  destruct (jwt_decode _ _ _ _ _) as [q|e] eqn:Hq; [|done].
  by destruct (Hdec q).
Qed.

(** C1. A token issued by [create_jwt] for non-empty [user_id] and
    [email], presented as [Bearer <token>], is accepted and yields the
    same [user_id] and [email] while the clock is before the token's
    [exp]: issue time plus ttl, rounded down to the whole second.  The
    guard answers 401 from the instant [exp] on, when the library
    rejects the token of the header under the server's secret for any
    reason (a signature that does not verify among them), when the
    header is missing or empty, and when the header is not of the form
    [<bearer> <token>]. *)
Theorem session_guard_authenticate (env : Env) (user_id email : string)
    (ttl : Z) (w0 w0' : World) (token : string) :
  JwtLaws (jwt env) →
  user_id ≠ "" → email ≠ "" →
  create_jwt env (identity_claims user_id email) ttl w0 = (Ret token, w0') →
  let exp := numeric_date (clock_reading w0 + timedelta_minutes ttl) in
  (∀ w, clock_reading w < exp * 1000000 →
     ∃ p, get_current_user env (Some ("Bearer " +:+ token)) w
          = (Ret p, after_read w)
        ∧ p !! "user_id" = Some (JStr user_id)
        ∧ p !! "email" = Some (JStr email))
  ∧ (∀ w, exp * 1000000 ≤ clock_reading w →
       (get_current_user env (Some ("Bearer " +:+ token)) w).1
       = Raise unauthorized)
  ∧ (∀ w header scheme tok e,
       py_split header = [scheme; tok] →
       jwt_decode (jwt env) tok (JWT_SECRET env) [JWT_ALG] (clock_reading w)
       = Raise e →
       (get_current_user env (Some header) w).1 = Raise unauthorized)
  ∧ (∀ w, (get_current_user env None w).1 = Raise missing_auth
          ∧ (get_current_user env (Some "") w).1 = Raise missing_auth)
  ∧ (∀ w header,
       header ≠ "" →
       (∀ scheme tok, py_split header = [scheme; tok] →
                      py_lower scheme ≠ "bearer") →
       (get_current_user env (Some header) w).1 = Raise unauthorized).
Proof.
  intros L Hu He Hissue exp. rewrite create_jwt_eq in Hissue.
  destruct (py_add_minutes _ _) as [r|] eqn:Hadd; [|done].
  apply py_add_minutes_Ret in Hadd as [-> _]. fold exp in Hissue.
  injection Hissue as Htok _.
  destruct (identity_claims_exp user_id email exp) as (Hexp & Hid & Hem).
  pose proof (identity_claims_private user_id email exp) as Hprivate.
  pose proof (jwt_encode_compact _ L
                (<["exp" := JInt exp]> (identity_claims user_id email))
                (JWT_SECRET env) JWT_ALG) as [Hne Hns].
  rewrite Htok in Hne, Hns.
  assert (Halg : JWT_ALG ∈ [JWT_ALG]) by by left.
  split_and!.
  - intros w Hlt. eexists.
    rewrite get_current_user_eq by apply bearer_header_nonempty.
    rewrite py_split_bearer by done. simpl.
    rewrite <- Htok.
    rewrite (jwt_decode_encode _ L _ _ _ _ exp) by done.
    rewrite Hid, Hem, !py_truthy_str by done. simpl. done.
  - intros w Hle.
    apply (get_current_user_decode_raises env _ "Bearer" token);
      [by apply py_split_bearer|].
    intros q Hq. rewrite <- Htok in Hq.
    apply (jwt_decode_sound _ L) in Hq as (_ & _ & Hvalid).
    specialize (Hvalid exp Hexp). lia.
  - intros w header scheme tok e Hsplit Hdec.
    apply (get_current_user_decode_raises env _ scheme tok); [done|].
    intros q. by rewrite Hdec.
  - done.
  - intros w header Hh Hbad.
    rewrite get_current_user_eq by done.
    destruct (py_split header) as [|scheme [|tok [|extra parts]]]; try done.
    by rewrite bool_decide_eq_false_2 by (by eapply Hbad).
Qed.

Lemma session_guard_authenticate_witness :
  ∃ p, get_current_user ref_env (Some ("Bearer " +:+ demo_token))
         (demo_world [5000])
       = (Ret p, after_read (demo_world [5000]))
     ∧ p !! "user_id" = Some (JStr "7")
     ∧ p !! "email" = Some (JStr "a@x.com").
Proof.
  refine (proj1 (session_guard_authenticate ref_env "7" "a@x.com" 1440
                   (demo_world []) (after_read (demo_world [])) demo_token
                   ref_jwt_laws _ _ _) (demo_world [5000]) _).
  - discriminate.
  - discriminate.
  - rewrite (create_jwt_eq ref_env). reflexivity.
  - vm_compute. reflexivity.
Defined.

(** C1, as stated, fails twice.  A token issued at 1.5 s for one minute
    carries [exp] 61 s and is refused at 61.2 s, before issue time plus
    ttl; and a token issued for an empty [user_id] is refused at once. *)
Lemma session_guard_authenticate_counterexample :
  ¬ spec_token_accepted ref_env "7" "a@x.com" 1
      (demo_world [1500000]) (demo_world [61200000])
  ∧ ¬ spec_token_accepted ref_env "" "a@x.com" 1440
        (demo_world [1500000]) (demo_world [1600000]).
Proof.
  split; intros Hspec.
  - destruct (Hspec _ _ (create_jwt_out ref_env _ _ _))
      as (p & Hp & _); [vm_compute; reflexivity|].
    vm_compute in Hp. discriminate.
  - destruct (Hspec _ _ (create_jwt_out ref_env _ _ _))
      as (p & Hp & _); [vm_compute; reflexivity|].
    vm_compute in Hp. discriminate.
Qed.

(** A signature that does not verify: the token of another signer, and
    a token cut short, are answered with 401. *)
Example session_guard_bad_signature :
  (get_current_user ref_env
     (Some ("Bearer " +:+ jwt_encode ref_jwt demo_claims "other-key" JWT_ALG))
     (demo_world [5000])).1
  = Raise unauthorized
  ∧ (get_current_user ref_env (Some "Bearer 0101") (demo_world [5000])).1
    = Raise unauthorized.
Proof. split; vm_compute; reflexivity. Qed.

(** C10. A header that does not split into exactly two words is answered
    with 401 whatever it contains, a valid unexpired token included. *)
Theorem get_current_user_two_words (env : Env) (header : string) (w : World) :
  length (py_split header) ≠ 2%nat →
  get_current_user env (Some header) w
  = (Raise (if bool_decide (header = "") then missing_auth else unauthorized),
     w).
Proof.
  intros Hlen. case_bool_decide as Hh; [by subst|].
  rewrite get_current_user_eq by done.
  by destruct (py_split header) as [|scheme [|tok [|extra parts]]].
Qed.

Lemma get_current_user_two_words_witness :
  get_current_user ref_env (Some ("Bearer " +:+ demo_token +:+ " extra"))
    (demo_world [5000])
  = (Raise unauthorized, demo_world [5000])
  ∧ get_current_user ref_env (Some "Bearer") (demo_world [5000])
  = (Raise unauthorized, demo_world [5000]).
Proof.
  split.
  - refine (get_current_user_two_words ref_env
              ("Bearer " +:+ demo_token +:+ " extra") (demo_world [5000]) _).
    vm_compute. lia.
  - refine (get_current_user_two_words ref_env "Bearer"
              (demo_world [5000]) _).
    vm_compute. lia.
Defined.

(** ** Worlds: clock, entropy and store are independent *)

Lemma gensalt_eq (w : World) : gensalt w = (Ret (next_salt w), after_salt w).
Proof. unfold after_salt, next_salt, gensalt. by destruct (w_entropy w). Qed.

Lemma after_salt_db (w : World) : w_db (after_salt w) = w_db w.
Proof. unfold after_salt, gensalt. by destruct (w_entropy w). Qed.

Lemma after_salt_clock (w : World) :
  clock_reading (after_salt w) = clock_reading w.
Proof. unfold after_salt, gensalt, clock_reading. by destruct (w_entropy w). Qed.

Lemma after_read_salt (w : World) :
  after_read (after_salt w) = after_salt (after_read w).
Proof.
  by destruct w as [d t [|c clock] [|s entropy]].
Qed.

Lemma set_db_db (d : DB) (w : World) : w_db (set_db d w) = d.
Proof. done. Qed.


Lemma after_read_set_db (d : DB) (w : World) :
  after_read (set_db d w) = set_db d (after_read w).
Proof. by destruct w as [d' t [|c clock] entropy]. Qed.






(** ** The handlers, path by path *)

Section Handlers.
Variable env : Env.

Lemma hash_password_eq (password : string) (w : World) :
  secret_ok password = true →
  hash_password env password w
  = (Ret (ctx_hash (pwd_context env) password (next_salt w)), after_salt w).
Proof.
  intros [Hlong Hnul]%secret_ok_split.
  unfold hash_password. rewrite Hlong. unfold_M.
  by rewrite gensalt_eq, Hnul.
Qed.

(** A password the hasher refuses: nothing is returned and the store is
    as it was. *)
Lemma hash_password_refused (password : string) (w : World) :
  secret_ok password = false →
  ∃ msg w', hash_password env password w = (Raise (ValueError msg), w')
            ∧ w_db w' = w_db w.
Proof.
  unfold secret_ok, hash_password. intros Hok.
  destruct (secret_too_long password); [by eexists _, _|].
  destruct (secret_has_nul password); [|done].
  unfold_M. rewrite gensalt_eq. eexists _, _. split; [done|].
  apply after_salt_db.
Qed.

Lemma store_otp_eq (email : string) (w : World) :
  store_otp env email w = (Ret tt, after_store_otp env email w).
Proof.
  unfold store_otp, otp_insert_one. unfold_M.
  rewrite hash_password_eq, !now_eq by done.
  rewrite py_add_minutes_day by (apply clock_reading_range || done).
  simpl. rewrite !after_read_db, after_salt_db.
  unfold after_store_otp, otp_entry, nth_reading, bson_otp. simpl.
  by rewrite after_salt_clock, after_read_salt, after_salt_clock.
Qed.

(** signup *)

Lemma signup_existing (body : SignupBody) (w : World) (u : Users) :
  users_find_one (sb_email body) (w_db w) = Some u →
  signup env body w
  = (Raise (HTTPException 400 "Email already registered"), w).
Proof. intros Hu. unfold signup. unfold_M. by rewrite Hu. Qed.

Lemma signup_new (body : SignupBody) (w : World) :
  users_find_one (sb_email body) (w_db w) = None →
  secret_ok (sb_password body) = true →
  signup env body w
  = (Ret (SignupResponse true "OTP sent to email" (sb_email body)),
     after_store_otp env (sb_email body) (signup_stored_user env body w)).
Proof.
  intros Hu Hok. unfold signup, users_insert_one. unfold_M. rewrite Hu.
  rewrite hash_password_eq, !now_eq, !after_read_db, after_salt_db by done.
  rewrite store_otp_eq.
  unfold signup_stored_user, signup_user, nth_reading, bson_user. simpl.
  by rewrite after_salt_clock, after_read_salt, after_salt_clock.
Qed.

Lemma signup_refused (body : SignupBody) (w : World) :
  users_find_one (sb_email body) (w_db w) = None →
  secret_ok (sb_password body) = false →
  ∃ msg w', signup env body w = (Raise (ValueError msg), w')
            ∧ w_db w' = w_db w.
Proof.
  intros Hu Hok. unfold signup. unfold_M. rewrite Hu.
  destruct (hash_password_refused (sb_password body) w Hok)
    as (msg & w' & -> & Hdb).
  by eexists _, _.
Qed.

(** login *)

Lemma login_unknown (body : LoginBody) (w : World) :
  users_find_one (lb_email body) (w_db w) = None →
  login env body w = (Raise (HTTPException 400 "Invalid credentials"), w).
Proof. intros Hu. unfold login. unfold_M. by rewrite Hu. Qed.

Lemma login_known (body : LoginBody) (w : World) (u : Users) :
  users_find_one (lb_email body) (w_db w) = Some u →
  login env body w =
  match ctx_verify (pwd_context env) (lb_password body)
                   (default "" (u_password u)) with
  | Raise e => (Raise e, w)
  | Ret false => (Raise (HTTPException 400 "Invalid credentials"), w)
  | Ret true =>
      if default false (u_is_verified u) then
        (Ret (LoginResponse true true
                (jwt_encode (jwt env)
                   (<["exp" := JInt (numeric_date
                                       (clock_reading w
                                        + timedelta_minutes (60 * 24)))]>
                      (identity_claims (str_oid (u__id u)) (u_email u)))
                   (JWT_SECRET env) JWT_ALG)
                (user_public u)),
         after_read w)
      else
        (Ret (LoginOtpResponse true false "OTP sent to email"),
         after_store_otp env (lb_email body) w)
  end.
Proof.
  intros Hu. unfold login, verify_password. unfold_M. rewrite Hu.
  destruct (ctx_verify _ _ _) as [[]|e]; simpl; try done.
  destruct (default false (u_is_verified u)); simpl.
  - by rewrite create_jwt_default_eq.
  - by rewrite store_otp_eq.
Qed.

(** resend_otp *)

Lemma resend_otp_eq (body : ResendOtpBody) (w : World) :
  resend_otp env body w =
  match users_find_one (rb_email body) (w_db w) with
  | None => (Raise (HTTPException 400 "Email not registered"), w)
  | Some _ => (Ret (ResendResponse true "OTP sent"),
               after_store_otp env (rb_email body) w)
  end.
Proof.
  unfold resend_otp. unfold_M.
  destruct (users_find_one _ _); [|done]. by rewrite store_otp_eq.
Qed.

End Handlers.

(** ** Queries *)

Lemma dt_le_refl (a : option datetime) : dt_le a a.
Proof. unfold dt_le. destruct a; simpl; [lia|done]. Qed.

Lemma dt_le_trans (a b c : option datetime) :
  dt_le a b → dt_le b c → dt_le a c.
Proof. unfold dt_le. destruct a, b, c; simpl; try done; lia. Qed.

Lemma dt_ltb_le (a b : option datetime) : dt_ltb a b = true → dt_le a b.
Proof. unfold dt_le. destruct a, b; simpl; try done; lia. Qed.

Lemma dt_le_total (a b : option datetime) : dt_le a b ∨ dt_le b a.
Proof. unfold dt_le. destruct a, b; simpl; auto; lia. Qed.

Lemma find_app {A} (p : A → bool) (l l' : list A) :
  List.find p (l ++ l') =
  match List.find p l with Some x => Some x | None => List.find p l' end.
Proof. induction l as [|x l IH]; simpl; [done|]. by destruct (p x). Qed.


Lemma find_is_Some {A} (p : A → bool) (l : list A) (x : A) :
  x ∈ l → p x = true → is_Some (List.find p l).
Proof.
  induction 1 as [x l|x y l Hin IH]; simpl; intros Hp.
  - by rewrite Hp.
  - destruct (p y); [done | by apply IH].
Qed.

Lemma find_update_first {A} (p : A → bool) (f : A → A) (l : list A) :
  (∀ x, p (f x) = p x) →
  List.find p (update_first p f l) = f <$> List.find p l.
Proof.
  intros Hpf. induction l as [|x l IH]; simpl; [done|].
  destruct (p x) eqn:Hx; simpl.
  - by rewrite Hpf, Hx.
  - by rewrite Hx.
Qed.

Lemma find_update_first_is_Some {A} (p q : A → bool) (f : A → A)
    (l : list A) :
  (∀ x, q (f x) = q x) →
  is_Some (List.find q l) → is_Some (List.find q (update_first p f l)).
Proof.
  intros Hqf. induction l as [|x l IH]; simpl; [done|].
  destruct (p x) eqn:Hp; simpl.
  - rewrite Hqf. by destruct (q x).
  - by destruct (q x).
Qed.

Lemma foldl_pick_latest (l : list Otp_codes) (acc : option Otp_codes) :
  match foldl pick_latest acc l with
  | Some r =>
      (acc = Some r ∨ r ∈ l)
      ∧ (∀ x, x ∈ l → dt_le (o_created_at x) (o_created_at r))
      ∧ (∀ b, acc = Some b → dt_le (o_created_at b) (o_created_at r))
  | None => acc = None ∧ l = []
  end.
Proof.
  revert acc. induction l as [|x l IH]; intros acc; simpl.
  - destruct acc as [b|]; [|done].
    split_and!; [by left | by intros ? ?%elem_of_nil |].
    intros ? [= <-]. apply dt_le_refl.
  - specialize (IH (pick_latest acc x)).
    destruct (foldl pick_latest (pick_latest acc x) l) as [r|];
      [|destruct IH as [H _]; destruct acc; simpl in H;
        [destruct (dt_ltb _ _)|]; done].
    destruct IH as (Hin & Hmax & Hacc).
    assert (dt_le (o_created_at x) (o_created_at r)
            ∧ ∀ b, acc = Some b → dt_le (o_created_at b) (o_created_at r))
      as [Hx Hb].
    { destruct acc as [b|]; simpl in *.
      - destruct (dt_ltb (o_created_at b) (o_created_at x)) eqn:Hlt.
        + split; [by apply Hacc|]. intros ? [= <-].
          eapply dt_le_trans; [by apply dt_ltb_le | by apply Hacc].
        + split; [|intros ? [= <-]; by apply Hacc].
          eapply dt_le_trans; [exact Hlt | by apply Hacc].
      - split; [by apply Hacc | done]. }
    split_and!; [| |done].
    + destruct Hin as [Hin|Hin]; [|by right; right].
      destruct acc as [b|]; simpl in Hin.
      * destruct (dt_ltb _ _); simplify_eq; [right; left | by left].
      * simplify_eq. right; left.
    + intros y [->|Hy]%elem_of_cons; [done | by apply Hmax].
Qed.

Lemma otp_find_one_latest_Some (e : string) (d : DB) (r : Otp_codes) :
  otp_find_one_latest e d = Some r → latest_for e d r.
Proof.
  unfold otp_find_one_latest, latest_for. intros Hr.
  pose proof (foldl_pick_latest
                (filter (λ r, o_email r = e) (otp_codes d)) None) as H.
  rewrite Hr in H. destruct H as ([?|Hin] & Hmax & _); [done|].
  apply list_elem_of_filter in Hin as [He Hin]. split_and!; [done..|].
  intros r' Hin' He'. apply Hmax. by apply list_elem_of_filter.
Qed.

Lemma otp_find_one_latest_None (e : string) (d : DB) :
  otp_find_one_latest e d = None →
  ∀ r, r ∈ otp_codes d → o_email r ≠ e.
Proof.
  unfold otp_find_one_latest. intros Hr r Hin He.
  pose proof (foldl_pick_latest
                (filter (λ r, o_email r = e) (otp_codes d)) None) as H.
  rewrite Hr in H. destruct H as [_ Hnil].
  assert (r ∈ filter (λ r, o_email r = e) (otp_codes d)) as Hf
    by by apply list_elem_of_filter.
  rewrite Hnil in Hf. by apply elem_of_nil in Hf.
Qed.

Lemma users_find_one_set_verified (e : string) (t : datetime) (d : DB) :
  users_find_one e (db_set_verified e t d)
  = set_verified t <$> users_find_one e d.
Proof. unfold users_find_one. simpl. by apply find_update_first. Qed.

(** ** verify_otp *)

Section VerifyOtp.
Variable env : Env.

Lemma after_expiry_check_db (record : Otp_codes) (w : World) :
  w_db (after_expiry_check record w) = w_db w.
Proof.
  unfold after_expiry_check. destruct (o_expires_at record); [|done].
  apply after_read_db.
Qed.

Lemma verify_otp_eq (body : VerifyOtpBody) (w : World) :
  verify_otp env body w =
  match otp_find_one_latest (vb_email body) (w_db w) with
  | None => (Raise (HTTPException 400 "OTP not found"), w)
  | Some record =>
      let w1 := after_expiry_check record w in
      if otp_expired record w
      then (Raise (HTTPException 400 "OTP expired"), w1)
      else
        match ctx_verify (pwd_context env) (vb_otp body)
                         (default "" (o_otp record)) with
        | Raise e => (Raise e, w1)
        | Ret false => (Raise (HTTPException 400 "Invalid OTP"), w1)
        | Ret true =>
            let w2 := after_mark_verified (vb_email body) record w in
            match users_find_one (vb_email body) (w_db w2) with
            | None =>
                (Raise (TypeError "'NoneType' object is not subscriptable"),
                 w2)
            | Some user =>
                (Ret (VerifyResponse true
                        (jwt_encode (jwt env)
                           (<["exp" := JInt (numeric_date
                                               (clock_reading w2
                                                + timedelta_minutes
                                                    (60 * 24)))]>
                              (identity_claims (str_oid (u__id user))
                                               (u_email user)))
                           (JWT_SECRET env) JWT_ALG)
                        (user_public user)),
                 after_read w2)
            end
        end
  end.
Proof.
  unfold verify_otp, verify_password, users_update_one_verified. unfold_M.
  destruct (otp_find_one_latest _ _) as [record|]; [|done].
  unfold otp_expired, after_mark_verified, after_expiry_check.
  destruct (o_expires_at record) as [expires_at|]; simpl.
  - rewrite now_eq. destruct (expires_at <? clock_reading w)%Z; [done|].
    destruct (ctx_verify _ _ _) as [[]|e]; simpl; try done.
    rewrite now_eq, after_read_db, after_read_db. simpl.
    destruct (users_find_one _ _); [|done].
    by rewrite create_jwt_default_eq.
  - destruct (ctx_verify _ _ _) as [[]|e]; simpl; try done.
    rewrite now_eq, after_read_db. simpl.
    destruct (users_find_one _ _); [|done].
    by rewrite create_jwt_default_eq.
Qed.

End VerifyOtp.

(** ** Reachable stores *)

Section Reachable.
Variable env : Env.

Lemma otp_owned_add_otp (r : Otp_codes) (d : DB) :
  otp_owned d → is_Some (users_find_one (o_email r) d) →
  otp_owned (db_add_otp r d).
Proof.
  intros Hd Hr r' [Hin| ->%list_elem_of_singleton]%elem_of_app; [|done].
  by apply Hd.
Qed.

Lemma users_find_one_add_user (e : string) (u : Users) (d : DB) :
  is_Some (users_find_one e d) ∨ u_email u = e →
  is_Some (users_find_one e (db_add_user u d)).
Proof.
  unfold users_find_one. simpl. rewrite find_app. intros H.
  destruct (List.find _ (users d)); [done|].
  destruct H as [[? [=]]| <-]. simpl. by rewrite bool_decide_eq_true_2.
Qed.

Lemma otp_owned_add_user (u : Users) (d : DB) :
  otp_owned d → otp_owned (db_add_user u d).
Proof.
  intros Hd r Hin. apply users_find_one_add_user. left. by apply Hd.
Qed.

Lemma otp_owned_set_verified (e : string) (t : datetime) (d : DB) :
  otp_owned d → otp_owned (db_set_verified e t d).
Proof.
  intros Hd r Hin. unfold users_find_one. simpl.
  apply find_update_first_is_Some; [done|]. by apply Hd.
Qed.

Lemma otp_owned_store_otp (email : string) (w : World) :
  otp_owned (w_db w) → is_Some (users_find_one email (w_db w)) →
  otp_owned (w_db (after_store_otp env email w)).
Proof. intros Hd Hu. by apply otp_owned_add_otp. Qed.

Lemma get_current_user_db (authorization : option string) (w : World) :
  w_db (get_current_user env authorization w).2 = w_db w.
Proof.
  destruct authorization as [header|]; [|done].
  destruct (decide (header = "")) as [->|Hne]; [done|].
  rewrite get_current_user_eq by done.
  repeat case_match; simpl; by rewrite ?after_read_db.
Qed.

Lemma handle_otp_owned (r : Request) (w : World) :
  otp_owned (w_db w) → otp_owned (w_db (handle env r w).2).
Proof.
  intros Hd. destruct r as [body|body|body|body|authorization]; simpl.
  - destruct (users_find_one (sb_email body) (w_db w)) as [u|] eqn:Hu.
    + by rewrite (signup_existing env body w u).
    + destruct (secret_ok (sb_password body)) eqn:Hok.
      * rewrite signup_new by done. apply otp_owned_store_otp.
        -- by apply otp_owned_add_user.
        -- apply users_find_one_add_user. by right.
      * destruct (signup_refused env body w Hu Hok) as (msg & w' & -> & Hdb).
        simpl. by rewrite Hdb.
  - destruct (users_find_one (lb_email body) (w_db w)) as [u|] eqn:Hu.
    + rewrite (login_known env body w u) by done.
      destruct (ctx_verify _ _ _) as [[]|e]; simpl; try done.
      destruct (default false (u_is_verified u)); simpl.
      * by rewrite after_read_db.
      * apply otp_owned_store_otp; [done | by rewrite Hu].
    + by rewrite login_unknown.
  - rewrite verify_otp_eq.
    destruct (otp_find_one_latest _ _) as [record|]; [|done]. simpl.
    destruct (otp_expired record w); simpl;
      [by rewrite after_expiry_check_db|].
    destruct (ctx_verify _ _ _) as [[]|e]; simpl;
      [|by rewrite after_expiry_check_db..].
    destruct (users_find_one _ _); simpl; rewrite ?after_read_db;
      by apply otp_owned_set_verified.
  - rewrite resend_otp_eq.
    destruct (users_find_one _ _) as [u|] eqn:Hu; simpl; [|done].
    apply otp_owned_store_otp; [done | by rewrite Hu].
  - unfold GET_conversations. unfold_M.
    pose proof (get_current_user_db authorization w) as Hdb.
    destruct (get_current_user env authorization w) as [[p|e] w']; simpl in *;
      [|by rewrite Hdb].
    unfold list_conversations. unfold_M.
    destruct (p !! "user_id"); simpl; by rewrite Hdb.
Qed.

Lemma reachable_otp_owned (d : DB) : reachable env d → otp_owned d.
Proof.
  induction 1 as [|r w _ IH]; [by intros r ?%elem_of_nil|].
  by apply handle_otp_owned.
Qed.

End Reachable.

(** ** OTP verification *)

Lemma demo_db_reachable : reachable ref_env demo_db.
Proof. apply reachable_step, reachable_empty. Qed.

Lemma otp_expired_false (record : Otp_codes) (w : World) :
  otp_expired record w = false ↔
  ∀ e, o_expires_at record = Some e → clock_reading w ≤ e.
Proof.
  unfold otp_expired. destruct (o_expires_at record) as [e|].
  - rewrite Z.ltb_ge. split; [by intros ? ? [= <-] | auto].
  - split; [by intros | done].
Qed.

(** C2. [verify_otp] succeeds exactly when a user record exists for the
    email, the candidate verifies against the hash of the most recently
    created challenge for the email, and the clock has not passed that
    challenge's stored expiry (the expiry instant itself is still
    accepted); the record loaded is a most recently created one; and
    after a success the user found for the email has [is_verified] set. *)
Theorem verify_otp_latest_challenge (env : Env) (body : VerifyOtpBody)
    (w : World) :
  (verify_otp_succeeds env body w
   ↔ otp_accepts env body w
     ∧ is_Some (users_find_one (vb_email body) (w_db w)))
  ∧ (∀ record,
       otp_find_one_latest (vb_email body) (w_db w) = Some record →
       latest_for (vb_email body) (w_db w) record)
  ∧ (∀ resp w',
       verify_otp env body w = (Ret resp, w') →
       ∃ u, users_find_one (vb_email body) (w_db w') = Some u
            ∧ u_is_verified u = Some true).
Proof.
  unfold verify_otp_succeeds, otp_accepts. rewrite verify_otp_eq.
  split_and!.
  - split.
    + intros (resp & w' & Hrun).
      destruct (otp_find_one_latest _ _) as [record|]; [|done].
      simpl in Hrun.
      destruct (otp_expired record w) eqn:Hexp; [done|].
      destruct (ctx_verify _ _ _) as [[]|e] eqn:Hok; try done.
      unfold after_mark_verified in Hrun. rewrite ?set_db_db in Hrun.
      simpl in Hrun. rewrite users_find_one_set_verified in Hrun.
      destruct (users_find_one (vb_email body) (w_db w)) as [u|]; [|done].
      split; [|done]. exists record.
      split_and!; [done | by apply otp_expired_false | done].
    + intros [(record & Hlatest & Hexp & Hok) [u Hu]]. rewrite Hlatest. simpl.
      apply otp_expired_false in Hexp. rewrite Hexp, Hok.
      unfold after_mark_verified. rewrite ?set_db_db. simpl.
      rewrite users_find_one_set_verified, Hu. simpl. eauto.
  - intros record. apply otp_find_one_latest_Some.
  - intros resp w'.
    destruct (otp_find_one_latest _ _) as [record|]; [|done]. simpl.
    destruct (otp_expired record w); [done|].
    destruct (ctx_verify _ _ _) as [[]|e]; try done.
    unfold after_mark_verified. rewrite ?set_db_db. simpl.
    rewrite users_find_one_set_verified.
    destruct (users_find_one (vb_email body) (w_db w)) as [u|] eqn:Hu;
      [|done].
    simpl. intros [= _ <-].
    rewrite after_read_db. simpl. rewrite users_find_one_set_verified, Hu.
    by eexists.
Qed.

Lemma verify_otp_latest_challenge_witness :
  verify_otp_succeeds ref_env demo_verify (demo_world_at 100).
Proof.
  apply (proj1 (verify_otp_latest_challenge ref_env demo_verify
                  (demo_world_at 100))).
  split; [eexists; split_and!|].
  - vm_compute. reflexivity.
  - intros e [= <-]. vm_compute. discriminate.
  - vm_compute. reflexivity.
  - vm_compute. eexists. reflexivity.
Defined.

(** C2, as stated, fails twice.  In the store left by a signup, whose
    challenge expires at 300040 ms, the correct candidate presented when
    the clock reads exactly that instant is accepted, although the
    challenge is then expired in the specification's sense.  And in a
    store that holds a challenge for an email without user record, the
    correct candidate presented in time does not succeed. *)
Lemma verify_otp_latest_challenge_counterexample :
  ¬ (verify_otp_succeeds ref_env demo_verify (demo_world_at demo_expiry)
     ↔ spec_otp_accepts ref_env demo_verify (demo_world_at demo_expiry))
  ∧ ¬ (verify_otp_succeeds ref_env demo_verify (world_of db_orphan_challenge)
       ↔ spec_otp_accepts ref_env demo_verify
           (world_of db_orphan_challenge)).
Proof.
  split.
  - intros [Hsucc _].
    destruct Hsucc as (record & Hlatest & Hexp & _).
    + destruct (verify_otp ref_env demo_verify (demo_world_at demo_expiry))
        as [[resp|e] w'] eqn:Hrun; [by eexists _, _|].
      vm_compute in Hrun. discriminate.
    + vm_compute in Hlatest. injection Hlatest as <-.
      specialize (Hexp _ eq_refl). vm_compute in Hexp. discriminate.
  - intros [_ Hspec].
    destruct Hspec as (resp & w' & Hrun).
    + eexists. split_and!.
      * vm_compute. reflexivity.
      * intros e [= <-]. vm_compute. reflexivity.
      * vm_compute. reflexivity.
    + vm_compute in Hrun. discriminate.
Qed.

(** C3. When the clock reads strictly more than the expiry of the most
    recent challenge, [verify_otp] fails with "OTP expired" whatever the
    candidate and the hasher, and leaves the store as it was.  When the
    clock has not passed the expiry, the expiry instant included, the
    hash comparison decides. *)
Theorem verify_otp_expired (env : Env) (body : VerifyOtpBody) (w : World)
    (record : Otp_codes) (e : datetime) :
  otp_find_one_latest (vb_email body) (w_db w) = Some record →
  o_expires_at record = Some e →
  (e < clock_reading w →
   verify_otp env body w
   = (Raise (HTTPException 400 "OTP expired"), after_read w))
  ∧ (clock_reading w ≤ e →
     match ctx_verify (pwd_context env) (vb_otp body)
                      (default "" (o_otp record)) with
     | Raise e' => verify_otp env body w = (Raise e', after_read w)
     | Ret false =>
         verify_otp env body w
         = (Raise (HTTPException 400 "Invalid OTP"), after_read w)
     | Ret true =>
         ∀ u, users_find_one (vb_email body) (w_db w) = Some u →
              verify_otp_succeeds env body w
     end).
Proof.
  intros Hlatest He. rewrite verify_otp_eq, Hlatest. simpl.
  unfold otp_expired, after_expiry_check, after_mark_verified.
  rewrite He. split.
  - intros Hlt. by rewrite (proj2 (Z.ltb_lt _ _) Hlt).
  - intros Hle. rewrite (proj2 (Z.ltb_ge _ _) Hle).
    destruct (ctx_verify _ _ _) as [[]|e'] eqn:Hok; try done.
    intros u Hu. unfold verify_otp_succeeds.
    rewrite verify_otp_eq, Hlatest. simpl.
    unfold otp_expired, after_expiry_check, after_mark_verified.
    rewrite He, (proj2 (Z.ltb_ge _ _) Hle), Hok. simpl.
    rewrite users_find_one_set_verified, Hu. simpl. eauto.
Qed.

Lemma verify_otp_expired_witness :
  verify_otp ref_env demo_verify (demo_world_at (demo_expiry + 1))
  = (Raise (HTTPException 400 "OTP expired"),
     after_read (demo_world_at (demo_expiry + 1))).
Proof.
  edestruct (verify_otp_expired ref_env demo_verify
               (demo_world_at (demo_expiry + 1))) as [Hlate _].
  - vm_compute. reflexivity.
  - reflexivity.
  - apply Hlate. vm_compute. reflexivity.
Defined.

(** C3, as stated, fails at the expiry instant: the clock reads exactly
    the expiry, and the correct candidate is accepted instead of being
    refused as expired. *)
Lemma verify_otp_expired_counterexample :
  ¬ spec_expired_from_expiry ref_env demo_verify (demo_world_at demo_expiry).
Proof.
  intros Hspec.
  assert (otp_find_one_latest (vb_email demo_verify)
            (w_db (demo_world_at demo_expiry))
          = Some (mkOtp 1%N "a@x.com"
                    (Some (ref_hash "123456" "salt-b"))
                    (Some 30000) (Some demo_expiry))) as Hlatest
    by (vm_compute; reflexivity).
  specialize (Hspec _ _ Hlatest eq_refl).
  vm_compute in Hspec. discriminate (Hspec ltac:(discriminate)).
Qed.

(** ** Login, signup and resend *)

Lemma users_find_one_Some (e : string) (d : DB) (u : Users) :
  u ∈ users d → u_email u = e → is_Some (users_find_one e d).
Proof.
  intros Hin He. apply (find_is_Some _ _ u); [done|].
  by apply bool_decide_eq_true_2.
Qed.

(** C4 (the code departs from it). [login] for an email without user
    record raises 400 "Invalid credentials" whatever the password.  For
    a known email the hasher decides: when it returns [False] the same
    400 is raised, but when it raises, the error leaves [login] as it
    is.  With a password the hasher refuses (a NUL character, more than
    4096 characters) the two runs differ: 400 for the unknown email, the
    hasher's error for the known one. *)
Theorem login_refused_password_differs :
  (∀ env body1 body2 w1 w2 u,
     users_find_one (lb_email body1) (w_db w1) = None →
     users_find_one (lb_email body2) (w_db w2) = Some u →
     login env body1 w1
     = (Raise (HTTPException 400 "Invalid credentials"), w1)
     ∧ match ctx_verify (pwd_context env) (lb_password body2)
                        (default "" (u_password u)) with
       | Ret false => (login env body2 w2).1 = (login env body1 w1).1
       | Ret true => ∃ resp, (login env body2 w2).1 = Ret resp
       | Raise e => login env body2 w2 = (Raise e, w2)
       end)
  ∧ (login ref_env (mkLoginBody "nobody@x.com" nul_password)
       (demo_world_at 100)).1
    = Raise (HTTPException 400 "Invalid credentials")
  ∧ (login ref_env (mkLoginBody "a@x.com" nul_password)
       (demo_world_at 100)).1
    = Raise (ValueError "bcrypt does not allow NULL bytes in password")
  ∧ (login ref_env (mkLoginBody "nobody@x.com" long_password)
       (demo_world_at 100)).1
    = Raise (HTTPException 400 "Invalid credentials")
  ∧ (login ref_env (mkLoginBody "a@x.com" long_password)
       (demo_world_at 100)).1
    = Raise (ValueError "password exceeds maximum allowed size").
Proof.
  split_and!.
  - intros env body1 body2 w1 w2 u Hnone Hsome.
    rewrite (login_unknown env body1 w1 Hnone).
    rewrite (login_known env body2 w2 u Hsome).
    split; [done|].
    destruct (ctx_verify _ _ _) as [[]|e]; [|done..].
    destruct (default false (u_is_verified u)); by eexists.
  - vm_compute. reflexivity.
  - vm_compute. reflexivity.
  - vm_compute. reflexivity.
  - vm_compute. reflexivity.
Qed.

(** With a password the hasher takes and does not verify, the two runs
    agree. *)
Example login_wrong_password_same :
  (login ref_env demo_login_unknown (demo_world_at 100)).1
  = (login ref_env demo_login_wrong (demo_world_at 100)).1.
Proof. vm_compute. reflexivity. Qed.

(** C5. [signup] with an email that already has a user record raises 400
    "Email already registered" and leaves the world, the store included,
    exactly as it was: no user added or changed, no challenge inserted. *)
Theorem signup_duplicate_email (env : Env) (body : SignupBody) (w : World)
    (u : Users) :
  u ∈ users (w_db w) → u_email u = sb_email body →
  signup env body w
  = (Raise (HTTPException 400 "Email already registered"), w)
  ∧ users (w_db (signup env body w).2) = users (w_db w)
  ∧ otp_codes (w_db (signup env body w).2) = otp_codes (w_db w).
Proof.
  intros Hin He.
  destruct (users_find_one_Some (sb_email body) (w_db w) u Hin He) as [u' Hu'].
  by rewrite (signup_existing env body w u' Hu').
Qed.

Lemma signup_duplicate_email_witness :
  signup ref_env demo_signup (demo_world_at 100)
  = (Raise (HTTPException 400 "Email already registered"), demo_world_at 100).
Proof.
  eapply (signup_duplicate_email ref_env demo_signup (demo_world_at 100)).
  - vm_compute. left.
  - reflexivity.
Defined.


(** ** OTP issuance *)

Lemma after_store_otp_appended (env : Env) (email : string) (w : World) :
  otp_appended email (nth_reading 0 w) (nth_reading 1 w)
               (w_db w) (w_db (after_store_otp env email w)).
Proof. by eexists. Qed.

Lemma bson_datetime_add_minutes (t : datetime) (m : Z) :
  bson_datetime (t + timedelta_minutes m)
  = bson_datetime t + timedelta_minutes m.
Proof.
  unfold bson_datetime, timedelta_minutes.
  replace (t + m * 60000000) with (t + m * 60000 * 1000) by lia.
  rewrite Z.div_add by done. lia.
Qed.

Lemma nth_reading_set_db (n : nat) (d : DB) (w : World) :
  nth_reading n (set_db d w) = nth_reading n w.
Proof.
  unfold nth_reading. revert w.
  induction n as [|n IH]; intros w; [done|].
  rewrite !Nat.iter_succ_r, after_read_set_db. apply IH.
Qed.

Lemma nth_reading_after_salt (n : nat) (w : World) :
  nth_reading n (after_salt w) = nth_reading n w.
Proof.
  unfold nth_reading. revert w.
  induction n as [|n IH]; intros w; [apply after_salt_clock|].
  rewrite !Nat.iter_succ_r, after_read_salt. apply IH.
Qed.

Lemma nth_reading_after_read (n : nat) (w : World) :
  nth_reading n (after_read w) = nth_reading (S n) w.
Proof. unfold nth_reading. by rewrite Nat.iter_succ_r. Qed.

(** C7. Each of the three issuances that runs to its end appends one
    challenge for the email and leaves the challenges stored before in
    place and unchanged.  Its [created_at] is one clock reading and its
    [expires_at] is the next clock reading plus five minutes, each cut
    to whole milliseconds by the store: the two differ by exactly five
    minutes when both reads fall in the same millisecond.  [signup]
    issues nothing when the hasher refuses the password. *)
Theorem otp_issuance_appends (env : Env) :
  (∀ body w,
     users_find_one (sb_email body) (w_db w) = None →
     secret_ok (sb_password body) = true →
     ∃ u, users (w_db (signup env body w).2) = users (w_db w) ++ [u]
          ∧ otp_appended (sb_email body) (nth_reading 2 w) (nth_reading 3 w)
                         (w_db w) (w_db (signup env body w).2))
  ∧ (∀ body w,
       users_find_one (sb_email body) (w_db w) = None →
       secret_ok (sb_password body) = false →
       (∃ msg, (signup env body w).1 = Raise (ValueError msg))
       ∧ w_db (signup env body w).2 = w_db w)
  ∧ (∀ body w u,
       users_find_one (lb_email body) (w_db w) = Some u →
       ctx_verify (pwd_context env) (lb_password body)
                  (default "" (u_password u)) = Ret true →
       default false (u_is_verified u) = false →
       users (w_db (login env body w).2) = users (w_db w)
       ∧ otp_appended (lb_email body) (nth_reading 0 w) (nth_reading 1 w)
                      (w_db w) (w_db (login env body w).2))
  ∧ (∀ body w u,
       users_find_one (rb_email body) (w_db w) = Some u →
       users (w_db (resend_otp env body w).2) = users (w_db w)
       ∧ otp_appended (rb_email body) (nth_reading 0 w) (nth_reading 1 w)
                      (w_db w) (w_db (resend_otp env body w).2))
  ∧ (∀ email created t d d',
       otp_appended email created t d d' →
       bson_datetime created = bson_datetime t →
       spec_otp_appended email d d').
Proof.
  split_and!.
  - intros body w Hnone Hok. rewrite signup_new by done. simpl.
    eexists. split; [done|].
    pose proof (after_store_otp_appended env (sb_email body)
                  (signup_stored_user env body w)) as Happ.
    unfold signup_stored_user in Happ at 1 2 3.
    by rewrite !nth_reading_set_db, !nth_reading_after_read,
      !nth_reading_after_salt in Happ.
  - intros body w Hnone Hok.
    destruct (signup_refused env body w Hnone Hok) as (msg & w' & -> & Hdb).
    split; [by eexists | done].
  - intros body w u Hu Hok Hunverified.
    rewrite (login_known env body w u Hu), Hok, Hunverified.
    split; [done | apply after_store_otp_appended].
  - intros body w u Hu. rewrite resend_otp_eq, Hu.
    split; [done | apply after_store_otp_appended].
  - intros email created t d d' (r & ? & ? & ? & Hexp) Hsame.
    exists r, (bson_datetime created). split_and!; [done..|].
    by rewrite Hexp, bson_datetime_add_minutes, Hsame.
Qed.

(** C7, as stated, fails: a resend whose two clock reads return 1999
    and 2000 microseconds stores a challenge created at 1 ms that
    expires at 2 ms plus five minutes. *)
Lemma otp_issuance_appends_counterexample :
  ¬ spec_otp_appended "a@x.com" (w_db (demo_world_at 1999))
      (w_db (resend_otp ref_env demo_resend (demo_world_at 1999)).2).
Proof.
  intros (r & created & Happ & _ & Hc & He).
  vm_compute in Happ. injection Happ as <-.
  simpl in Hc, He. injection Hc as <-. vm_compute in He. discriminate.
Qed.

(** ** Errors of the hasher *)

(** [verify_password] has no handler of its own, and neither have the
    two call sites: what the hasher raises leaves the handler as it is. *)
Lemma hasher_errors_propagate (env : Env) :
  (∀ plain hashed w,
     verify_password env plain hashed w
     = (ctx_verify (pwd_context env) plain hashed, w))
  ∧ (∀ body w u e,
       users_find_one (lb_email body) (w_db w) = Some u →
       ctx_verify (pwd_context env) (lb_password body)
                  (default "" (u_password u)) = Raise e →
       login env body w = (Raise e, w))
  ∧ (∀ body w record e,
       otp_find_one_latest (vb_email body) (w_db w) = Some record →
       otp_expired record w = false →
       ctx_verify (pwd_context env) (vb_otp body)
                  (default "" (o_otp record)) = Raise e →
       verify_otp env body w = (Raise e, after_expiry_check record w)).
Proof.
  split_and!.
  - done.
  - intros body w u e Hu He. by rewrite (login_known env body w u Hu), He.
  - intros body w record e Hlatest Hexp He.
    by rewrite verify_otp_eq, Hlatest; simpl; rewrite Hexp, He.
Qed.

(** C6 (the code departs from it). With the bcrypt-only context, a
    missing or malformed stored hash makes the hasher raise; [login] and
    [verify_otp] then end in that error, not in their 400 failure. *)
Theorem missing_hash_raises :
  ref_verify "p1" "" = Raise unknown_hash
  ∧ ref_verify "p1" "p1" = Raise unknown_hash
  ∧ ref_verify "p1" "$2b$12$truncated" = Raise (ValueError "malformed bcrypt hash")
  ∧ (login ref_env demo_login (world_of db_without_hashes)).1
    = Raise unknown_hash
  ∧ (verify_otp ref_env demo_verify (world_of db_without_hashes)).1
    = Raise unknown_hash
  ∧ (login ref_env demo_login (world_of db_with_plaintext)).1
    = Raise unknown_hash
  ∧ (verify_otp ref_env demo_verify (world_of db_with_plaintext)).1
    = Raise unknown_hash.
Proof.
  split_and!; vm_compute; reflexivity.
Qed.

(** ** Conversations *)

Global Instance conv_newer_first_trans : Transitive conv_newer_first.
Proof. intros a b c Hab Hbc. by eapply dt_le_trans. Qed.

Global Instance conv_newer_first_total : Total conv_newer_first.
Proof. intros a b. unfold conv_newer_first. apply dt_le_total. Qed.

Lemma conversations_find_sorted_spec (v : jval) (d : DB) :
  StronglySorted conv_newer_first (conversations_find_sorted v d)
  ∧ conversations_find_sorted v d
    ≡ₚ filter (λ c, JStr (c_user_id c) = v) (conversations d).
Proof.
  split.
  - apply StronglySorted_merge_sort; apply _.
  - apply merge_sort_Permutation.
Qed.

(** C9. With a header the guard accepts, the listing returns exactly the
    stored conversations whose [user_id] equals the token's [user_id]
    claim, each once, ordered by [updated_at] descending; with any other
    header, or none, it raises the guard's 401 and returns nothing. *)
Theorem list_conversations_scoped (env : Env) (authorization : option string)
    (w : World) :
  match get_current_user env authorization w with
  | (Ret user, w') =>
      ∃ v items,
        user !! "user_id" = Some v
        ∧ GET_conversations env authorization w
          = (Ret (ConversationsResponse true items), w')
        ∧ (∀ it, it ∈ items → JStr (ci_user_id it) = v)
        ∧ StronglySorted item_newer_first items
        ∧ items ≡ₚ conv_item <$> filter (λ c, JStr (c_user_id c) = v)
                                        (conversations (w_db w))
  | (Raise e, w') =>
      GET_conversations env authorization w = (Raise e, w')
      ∧ (e = missing_auth ∨ e = unauthorized)
  end.
Proof.
  unfold GET_conversations. unfold_M.
  pose proof (get_current_user_db env authorization w) as Hdb.
  destruct (get_current_user env authorization w) as [[user|e] w'] eqn:Hg.
  - apply get_current_user_returns in Hg
      as (_ & _ & _ & _ & _ & _ & _ & Hid & _ & _).
    unfold list_conversations. unfold_M. simpl in Hdb.
    destruct (user !! "user_id") as [v|] eqn:Hv; [|done].
    destruct (conversations_find_sorted_spec v (w_db w')) as [Hsorted Hperm].
    exists v, (conv_item <$> conversations_find_sorted v (w_db w')).
    split_and!; [done | done | | |].
    + intros it (c & -> & Hc)%list_elem_of_fmap.
      rewrite Hperm in Hc. by apply list_elem_of_filter in Hc as [? _].
    + by apply (StronglySorted_fmap _ conv_newer_first).
    + by rewrite Hperm, Hdb.
  - split; [done|]. by eapply get_current_user_raises.
Qed.

(** ** The flows on concrete requests *)

(** signup, login before verification, verification, login again. *)
Example signup_login_verify_login :
  let w0 := demo_world (demo_clock ++ [50001; 60002; 70000; 80000]) in
  let r1 := signup ref_env demo_signup w0 in
  let r2 := login ref_env demo_login r1.2 in
  let r3 := verify_otp ref_env demo_verify r2.2 in
  let r4 := login ref_env demo_login r3.2 in
  r1.1 = Ret (SignupResponse true "OTP sent to email" "a@x.com")
  ∧ r2.1 = Ret (LoginOtpResponse true false "OTP sent to email")
  ∧ without_token r3.1 = Ret (VerifyResponse true "" demo_user_public)
  ∧ without_token r4.1 = Ret (LoginResponse true true "" demo_user_public)
  ∧ (o_created_at <$> otp_codes (w_db r4.2)) = [Some 30000; Some 50000]
  ∧ (o_expires_at <$> otp_codes (w_db r4.2))
    = [Some (40000 + timedelta_minutes 5);
       Some (60000 + timedelta_minutes 5)]
  ∧ (u_is_verified <$> users (w_db r4.2)) = [Some true].
Proof. vm_compute. by repeat split. Qed.

(** The token a verified login returns is accepted by the guard. *)
Example login_token_accepted :
  let w := (verify_otp ref_env demo_verify (demo_world_at 100)).2 in
  match login ref_env demo_login w with
  | (Ret (LoginResponse _ _ token _), w') =>
      ∃ p, (get_current_user ref_env (Some ("Bearer " +:+ token)) w').1 = Ret p
           ∧ p !! "user_id" = Some (JStr "0")
           ∧ p !! "email" = Some (JStr "a@x.com")
  | _ => False
  end.
Proof. vm_compute. by eexists. Qed.

(** A verified user still gets a new challenge from [resend_otp]. *)
Example resend_otp_for_verified_user :
  let w := (verify_otp ref_env demo_verify (demo_world_at 100)).2 in
  (u_is_verified <$> users (w_db w)) = [Some true]
  ∧ (resend_otp ref_env demo_resend w).1 = Ret (ResendResponse true "OTP sent")
  ∧ length (otp_codes (w_db (resend_otp ref_env demo_resend w).2)) = 2%nat.
Proof. vm_compute. by repeat split. Qed.

(** [login] of an unverified user with the right password: the second
    and third parts of the issuance property on an actual run. *)
Example login_unverified_issues_otp :
  otp_appended "a@x.com" 100 101 (w_db (demo_world_at 100))
    (w_db (login ref_env demo_login (demo_world_at 100)).2).
Proof. eexists. vm_compute. by repeat split. Qed.

(** The listing for the owner "7" of three of the four conversations. *)
Example list_conversations_of_7 :
  (GET_conversations ref_env (Some ("Bearer " +:+ demo_token))
     demo_chat_world).1
  = Ret (ConversationsResponse true
           [mkConvItem "12" "7" "second" (Some 3000) (Some 8000) 4;
            mkConvItem "10" "7" "first" (Some 1000) (Some 5000) 2;
            mkConvItem "13" "7" "never updated" (Some 4000) None 0]).
Proof. vm_compute. reflexivity. Qed.

Example py_split_examples :
  py_split "Bearer abc" = ["Bearer"; "abc"]
  ∧ py_split "  Bearer   abc  " = ["Bearer"; "abc"]
  ∧ py_split "Bearer" = ["Bearer"]
  ∧ py_split "Bearer abc def" = ["Bearer"; "abc"; "def"]
  ∧ py_split "   " = []
  ∧ py_lower "BeArEr" = "bearer".
Proof. vm_compute. by repeat split. Qed.

(** The scheme word is compared without regard to case. *)
Example bearer_scheme_case_insensitive :
  (get_current_user ref_env (Some ("bEaReR " +:+ demo_token))
     (demo_world [5000])).1
  = (get_current_user ref_env (Some ("Bearer " +:+ demo_token))
       (demo_world [5000])).1
  ∧ (get_current_user ref_env (Some ("Basic " +:+ demo_token))
       (demo_world [5000])).1
    = Raise unauthorized.
Proof. vm_compute. by repeat split. Qed.

(** ** Signup followed by verification *)


Lemma otp_find_one_latest_first (e : string) (r : Otp_codes) (d : DB) :
  (∀ r', r' ∈ otp_codes d → o_email r' ≠ e) → o_email r = e →
  otp_find_one_latest e (db_add_otp r d) = Some r.
Proof.
  intros Hnone He. unfold otp_find_one_latest. simpl.
  assert (filter (λ r, o_email r = e) (otp_codes d ++ [r]) = [r]) as ->;
    [|done].
  induction (otp_codes d) as [|x l IH]; simpl.
  - by rewrite list.filter_cons_True.
  - rewrite list.filter_cons_False by (apply Hnone; left).
    apply IH. intros r' Hin. apply Hnone. by right.
Qed.

(** With a hasher that verifies what it hashed, the code stored by a
    fresh [signup] is accepted until the clock passes its expiry. *)
Lemma signup_then_verify_otp (env : Env) (body : SignupBody) (w w' : World) :
  HashLaws (pwd_context env) →
  otp_owned (w_db w) →
  users_find_one (sb_email body) (w_db w) = None →
  secret_ok (sb_password body) = true →
  w_db w' = w_db (signup env body w).2 →
  clock_reading w' ≤ bson_datetime (nth_reading 3 w + timedelta_minutes 5) →
  verify_otp_succeeds env (mkVerifyOtpBody (sb_email body) "123456") w'.
Proof.
  intros Hlaws Howned Hnone Hsecret Hdb Hclock.
  rewrite signup_new in Hdb by done. simpl in Hdb.
  set (u := signup_user env body w) in *.
  set (r := otp_entry env (sb_email body) (signup_stored_user env body w))
    in *.
  assert (otp_find_one_latest (sb_email body) (w_db w') = Some r) as Hlatest.
  { rewrite Hdb. apply otp_find_one_latest_first; [|done].
    intros r' Hin He. destruct (Howned r' Hin) as [u' Hu'].
    rewrite He in Hu'. congruence. }
  assert (users_find_one (sb_email body) (w_db w') = Some u) as Hu.
  { rewrite Hdb. unfold users_find_one in *. simpl. rewrite find_app, Hnone.
    simpl. by rewrite bool_decide_eq_true_2. }
  assert (otp_expired r w' = false) as Hexp.
  { apply otp_expired_false. unfold r, otp_entry, signup_stored_user. simpl.
    rewrite nth_reading_set_db, !nth_reading_after_read,
      nth_reading_after_salt.
    by intros e [= <-]. }
  unfold verify_otp_succeeds. rewrite verify_otp_eq. simpl.
  rewrite Hlatest. simpl. rewrite Hexp.
  unfold r at 1. simpl. rewrite (ctx_verify_hash _ Hlaws) by done.
  unfold after_mark_verified. simpl.
  rewrite users_find_one_set_verified, Hu. simpl. eauto.
Qed.

Example signup_then_verify_otp_reference :
  verify_otp_succeeds ref_env (mkVerifyOtpBody "a@x.com" "123456")
    (demo_world_at demo_expiry).
Proof.
  apply (signup_then_verify_otp ref_env demo_signup
           (demo_world demo_clock)).
  - apply ref_hash_laws.
  - by intros r ?%elem_of_nil.
  - done.
  - done.
  - done.
  - vm_compute. discriminate.
Qed.

(** * Further properties of the code *)

(** ** Words of a header *)

Lemma no_space_snoc (w : string) (c : ascii) :
  no_space w = true → py_isspace c = false → no_space (snoc_char w c) = true.
Proof.
  intros Hw Hc. unfold snoc_char.
  induction w as [|a w IH].
  - rewrite app_empty_l. simpl. by rewrite Hc.
  - simpl in Hw. apply andb_true_iff in Hw as [Ha Hw].
    rewrite app_cons. simpl. by rewrite Ha, IH.
Qed.

Lemma snoc_char_not_empty (w : string) (c : ascii) : snoc_char w c ≠ "".
Proof. by destruct w. Qed.

Lemma py_split_from_words (s word : string) :
  no_space word = true →
  Forall (λ x, x ≠ "" ∧ no_space x = true) (py_split_from word s).
Proof.
  revert word. induction s as [|c s IH]; intros word Hw; simpl.
  - case_bool_decide; [constructor|]. by repeat constructor.
  - destruct (py_isspace c) eqn:Hc.
    + case_bool_decide; [by apply IH|].
      constructor; [done | by apply IH].
    + apply IH. by apply no_space_snoc.
Qed.

Lemma py_split_from_lead (pad s : string) :
  all_space pad = true → py_split_from "" (pad +:+ s) = py_split_from "" s.
Proof.
  induction pad as [|c pad IH]; intros Hp; [done|].
  simpl in Hp. apply andb_true_iff in Hp as [Hc Hp].
  rewrite app_cons. simpl. rewrite Hc. simpl. by apply IH.
Qed.

Lemma py_split_all_space (pad : string) :
  all_space pad = true → py_split_from "" pad = [].
Proof.
  intros Hp. rewrite <- (app_empty_r pad). by rewrite py_split_from_lead.
Qed.

Lemma py_split_from_word_then (a word : string) (c : ascii) (rest : string) :
  no_space a = true → word +:+ a ≠ "" → py_isspace c = true →
  py_split_from word (a +:+ String c rest)
  = (word +:+ a) :: py_split_from "" rest.
Proof.
  revert word. induction a as [|x a IH]; intros word Ha Hne Hc.
  - rewrite app_empty_l, app_empty_r in *. simpl. rewrite Hc.
    by rewrite bool_decide_eq_false_2.
  - simpl in Ha. apply andb_true_iff in Ha as [Hx Ha].
    apply negb_true_iff in Hx. rewrite app_cons. simpl. rewrite Hx.
    rewrite IH, snoc_char_app; [done | done | | done].
    rewrite snoc_char_app. by destruct word.
Qed.

Lemma py_split_padded (pad1 a sep b pad2 : string) :
  all_space pad1 = true → all_space sep = true → sep ≠ "" →
  all_space pad2 = true →
  no_space a = true → a ≠ "" → no_space b = true → b ≠ "" →
  py_split (pad1 +:+ a +:+ sep +:+ b +:+ pad2) = [a; b].
Proof.
  intros Hp1 Hsep Hsep' Hp2 Ha Ha' Hb Hb'. unfold py_split.
  rewrite py_split_from_lead by done.
  destruct sep as [|c sep]; [done|]. simpl in Hsep.
  apply andb_true_iff in Hsep as [Hc Hsep].
  rewrite app_cons, py_split_from_word_then by done.
  rewrite app_empty_l, py_split_from_lead by done. f_equal.
  destruct pad2 as [|c2 pad2].
  - rewrite app_empty_r. by apply py_split_word.
  - simpl in Hp2. apply andb_true_iff in Hp2 as [Hc2 Hp2].
    rewrite py_split_from_word_then by done.
    by rewrite app_empty_l, py_split_all_space.
Qed.

Lemma py_lower_char_space (c : ascii) :
  py_isspace c = true → py_lower_char c = c.
Proof.
  destruct c as [b0 b1 b2 b3 b4 b5 b6 b7].
  by destruct b0, b1, b2, b3, b4, b5, b6, b7.
Qed.

Lemma py_lower_no_space (s : string) :
  no_space (py_lower s) = true → no_space s = true.
Proof.
  induction s as [|c s IH]; simpl; [done|].
  intros [Hc Hs]%andb_true_iff. rewrite IH by done.
  destruct (py_isspace c) eqn:Hsp; [|done].
  by rewrite py_lower_char_space, Hsp in Hc.
Qed.

Lemma py_lower_bearer (scheme : string) :
  py_lower scheme = "bearer" → no_space scheme = true ∧ scheme ≠ "".
Proof.
  intros Hl. split; [|by intros ->].
  apply py_lower_no_space. by rewrite Hl.
Qed.

(** X1. The guard reads the header through its words only: any casing
    of the scheme word and any white space before, between and after the
    two words give the same outcome as [Bearer <token>]. *)
Theorem get_current_user_padding_and_case (env : Env)
    (pad1 scheme sep token pad2 : string) (w : World) :
  all_space pad1 = true → all_space sep = true → sep ≠ "" →
  all_space pad2 = true →
  py_lower scheme = "bearer" →
  no_space token = true → token ≠ "" →
  get_current_user env
    (Some (pad1 +:+ scheme +:+ sep +:+ token +:+ pad2)) w
  = get_current_user env (Some ("Bearer " +:+ token)) w.
Proof.
  intros Hp1 Hsep Hsep' Hp2 Hscheme Htok Htok'.
  destruct (py_lower_bearer scheme Hscheme) as [Hs Hs'].
  assert (pad1 +:+ scheme +:+ sep +:+ token +:+ pad2 ≠ "") as Hne.
  { intros Hempty.
    assert (py_split (pad1 +:+ scheme +:+ sep +:+ token +:+ pad2)
            = [scheme; token]) as Hsplit by by apply py_split_padded.
    by rewrite Hempty in Hsplit. }
  rewrite !get_current_user_eq by (done || apply bearer_header_nonempty).
  rewrite py_split_padded, py_split_bearer by done.
  by rewrite Hscheme.
Qed.

Lemma get_current_user_padding_and_case_witness :
  get_current_user ref_env
    (Some ("  " +:+ "bEaReR" +:+ "   " +:+ demo_token +:+ " "))
    (demo_world [5000])
  = get_current_user ref_env (Some ("Bearer " +:+ demo_token))
      (demo_world [5000]).
Proof.
  apply (get_current_user_padding_and_case ref_env "  " "bEaReR" "   "
           demo_token " " (demo_world [5000])).
  - reflexivity.
  - reflexivity.
  - discriminate.
  - reflexivity.
  - reflexivity.
  - apply pos_to_str_no_space.
  - apply pos_to_str_nonempty.
Defined.

(** X2. Whatever the guard returns was decoded by the library, under
    the server's secret and the single algorithm HS256, from the second
    word of a two-word header whose first word is [bearer] in some
    casing; the token is non-empty and free of white space, both claims
    are truthy, and the run read the clock once and left the store as it
    was. *)
Theorem get_current_user_validated (env : Env)
    (authorization : option string) (w w' : World) (p : payload) :
  get_current_user env authorization w = (Ret p, w') →
  ∃ header scheme token,
    authorization = Some header
    ∧ py_split header = [scheme; token]
    ∧ py_lower scheme = "bearer"
    ∧ token ≠ "" ∧ no_space token = true
    ∧ jwt_decode (jwt env) token (JWT_SECRET env) ["HS256"]
                 (clock_reading w) = Ret p
    ∧ py_truthy (p !! "user_id") = true
    ∧ py_truthy (p !! "email") = true
    ∧ w' = after_read w
    ∧ w_db w' = w_db w.
Proof.
  intros Hrun.
  apply get_current_user_returns in Hrun
    as (header & scheme & token & -> & Hsplit & Hs & Hdec & Hu & He & ->).
  exists header, scheme, token.
  pose proof (py_split_from_words header "" eq_refl) as Hwords.
  fold (py_split header) in Hwords. rewrite Hsplit in Hwords.
  inversion Hwords as [|? ? _ Hrest]; subst.
  inversion Hrest as [|? ? [Ht Ht'] _]; subst.
  split_and!; try done. apply after_read_db.
Qed.

Lemma get_current_user_validated_witness :
  ∃ header scheme token,
    Some ("Bearer " +:+ demo_token) = Some header
    ∧ py_split header = [scheme; token]
    ∧ py_lower scheme = "bearer"
    ∧ token ≠ "" ∧ no_space token = true
    ∧ jwt_decode (jwt ref_env) token (JWT_SECRET ref_env) ["HS256"]
                 (clock_reading (demo_world [5000]))
      = Ret demo_claims
    ∧ py_truthy (demo_claims !! "user_id") = true
    ∧ py_truthy (demo_claims !! "email") = true
    ∧ after_read (demo_world [5000]) = after_read (demo_world [5000])
    ∧ w_db (after_read (demo_world [5000])) = w_db (demo_world [5000]).
Proof.
  apply (get_current_user_validated ref_env (Some ("Bearer " +:+ demo_token))
           (demo_world [5000])).
  vm_compute. reflexivity.
Defined.

(** ** Tokens *)

(** X3. [create_jwt] reads the clock once and raises [OverflowError]
    when issue time plus the minutes asked for is no [datetime];
    otherwise it returns a token whose [exp] is that instant in whole
    seconds, rounded down.  For a claims dictionary without registered
    claims of its own, [decode_jwt] of the token returns the dictionary
    with [exp] set (an [exp] the caller put in is overwritten, every
    other key is as given) while the clock is before the second [exp],
    and raises [ExpiredSignatureError] from that second on. *)
Theorem create_jwt_decode_jwt (env : Env) (p : payload) (minutes : Z)
    (w0 : World) :
  JwtLaws (jwt env) →
  private_claims (delete "exp" p) →
  match py_add_minutes (clock_reading w0) minutes with
  | Raise e =>
      e = OverflowError
      ∧ create_jwt env p minutes w0 = (Raise OverflowError, after_read w0)
  | Ret t =>
      let exp := numeric_date t in
      t = clock_reading w0 + timedelta_minutes minutes
      ∧ exp * 1000000 ≤ t < (exp + 1) * 1000000
      ∧ ∃ token,
          create_jwt env p minutes w0 = (Ret token, after_read w0)
          ∧ (∀ w, clock_reading w < exp * 1000000 →
               decode_jwt env token w
               = (Ret (<["exp" := JInt exp]> p), after_read w))
          ∧ (∀ w, exp * 1000000 ≤ clock_reading w →
               decode_jwt env token w
               = (Raise ExpiredSignatureError, after_read w))
          ∧ (<["exp" := JInt exp]> p) !! "exp" = Some (JInt exp)
          ∧ (∀ k, k ≠ "exp" → (<["exp" := JInt exp]> p) !! k = p !! k)
  end.
Proof.
  intros L Hprivate. rewrite create_jwt_eq.
  destruct (py_add_minutes _ _) as [t|e] eqn:Hadd.
  - apply py_add_minutes_Ret in Hadd as [Ht _]. simpl.
    set (exp := numeric_date t).
    assert (JWT_ALG ∈ [JWT_ALG]) as Halg by by left.
    assert ((<["exp" := JInt exp]> p) !! "exp" = Some (JInt exp)) as Hexp
      by apply lookup_insert_eq.
    assert (private_claims (<["exp" := JInt exp]> p)) as Hpriv.
    { intros k Hk. specialize (Hprivate k Hk).
      assert (k ≠ "exp") as Hne.
      { intros ->. unfold registered_claims in Hk.
        repeat (apply elem_of_cons in Hk as [Hk|Hk]; [done|]).
        by apply elem_of_nil in Hk. }
      rewrite lookup_insert_ne by done.
      by rewrite lookup_delete_ne in Hprivate. }
    split; [done|]. split.
    + unfold exp, numeric_date.
      pose proof (Z.mul_div_le t 1000000 ltac:(lia)).
      pose proof (Z.mul_succ_div_gt t 1000000 ltac:(lia)). lia.
    + eexists. split_and!; [done | | | done |].
      * intros w Hlt. rewrite decode_jwt_eq.
        by rewrite (jwt_decode_encode _ L _ _ _ _ exp).
      * intros w Hle. rewrite decode_jwt_eq.
        by rewrite (jwt_decode_expired _ L _ _ _ _ exp).
      * intros k Hk. by apply lookup_insert_ne.
  - assert (e = OverflowError) as ->; [|done].
    unfold py_add_minutes in Hadd. repeat case_match; congruence.
Qed.

Lemma create_jwt_decode_jwt_witness :
  ∃ token,
    create_jwt ref_env (identity_claims "7" "a@x.com") 1440 (demo_world [])
    = (Ret token, after_read (demo_world []))
    ∧ decode_jwt ref_env token (demo_world [86399999999])
      = (Ret demo_claims, after_read (demo_world [86399999999]))
    ∧ decode_jwt ref_env token (demo_world [86400000000])
      = (Raise ExpiredSignatureError, after_read (demo_world [86400000000])).
Proof.
  pose proof (create_jwt_decode_jwt ref_env (identity_claims "7" "a@x.com")
                1440 (demo_world []) ref_jwt_laws) as H.
  replace (py_add_minutes (clock_reading (demo_world [])) 1440)
    with (Ret (A := datetime) 86400001000) in H by (vm_compute; reflexivity).
  destruct H as (_ & _ & token & Hissue & Hvalid & Hexpired & _).
  - intros k Hk. unfold registered_claims in Hk.
    repeat (apply elem_of_cons in Hk as [->|Hk]; [vm_compute; reflexivity|]).
    by apply elem_of_nil in Hk.
  - exists token. split_and!.
    + exact Hissue.
    + apply (Hvalid (demo_world [86399999999])). vm_compute. reflexivity.
    + apply (Hexpired (demo_world [86400000000])). vm_compute. discriminate.
Defined.

(** X4. A token the server itself signed is still refused with 401 when
    its claims lack a truthy [user_id] or a truthy [email], also before
    its expiry. *)
Theorem get_current_user_requires_claims (env : Env) (p : payload)
    (minutes : Z) (w0 w0' w : World) (token : string) :
  JwtLaws (jwt env) →
  create_jwt env p minutes w0 = (Ret token, w0') →
  py_truthy (p !! "user_id") = false ∨ py_truthy (p !! "email") = false →
  clock_reading w < clock_reading w0 + timedelta_minutes minutes →
  get_current_user env (Some ("Bearer " +:+ token)) w
  = (Raise unauthorized, after_read w).
Proof.
  intros L Hissue Hfalsy Hlt. rewrite create_jwt_eq in Hissue.
  destruct (py_add_minutes _ _) as [t|]; [|done].
  injection Hissue as <- _.
  set (exp := numeric_date t) in *.
  destruct (jwt_encode_compact _ L (<["exp" := JInt exp]> p)
              (JWT_SECRET env) JWT_ALG) as [Hne Hns].
  rewrite get_current_user_eq by apply bearer_header_nonempty.
  rewrite py_split_bearer by done. simpl.
  destruct (jwt_decode _ _ _ _ _) as [q|e] eqn:Hq; [|done].
  apply (jwt_decode_sound _ L) in Hq as (-> & _).
  rewrite !lookup_insert_ne by done.
  destruct Hfalsy as [-> | ->]; [done|].
  by rewrite andb_false_r.
Qed.

Lemma get_current_user_requires_claims_witness :
  get_current_user ref_env
    (Some ("Bearer " +:+ jwt_encode ref_jwt
              (<["exp" := JInt 3600]> demo_role_claims)
              "dev-secret-key" JWT_ALG))
    (demo_world [5000])
  = (Raise unauthorized, after_read (demo_world [5000])).
Proof.
  apply (get_current_user_requires_claims ref_env demo_role_claims 60
           (demo_world []) (after_read (demo_world [])) (demo_world [5000])).
  - apply ref_jwt_laws.
  - apply (create_jwt_eq ref_env).
  - by left.
  - vm_compute. reflexivity.
Defined.

(** ** Lookups and updates of the store *)

Lemma str_oid_go_nonempty (x : N) (s : string) :
  s ≠ "" ∨ (0 < x)%N → pretty_N_go x s ≠ "".
Proof.
  revert s. induction (N.lt_wf_0 x) as [x _ IH]; intros s Hs.
  assert (x = 0 ∨ 0 < x)%N as [->|Hx] by lia.
  - rewrite pretty_N_go_0. destruct Hs as [?|?]; [done | lia].
  - rewrite pretty_N_go_step by done. apply IH; [by apply N.div_lt|].
    by left.
Qed.

Lemma str_oid_nonempty (i : ObjectId) : str_oid i ≠ "".
Proof.
  unfold str_oid, pretty, pretty_N. case_decide; [done|].
  apply str_oid_go_nonempty. right. lia.
Qed.

Lemma users_find_one_email (e : string) (d : DB) (u : Users) :
  users_find_one e d = Some u → u ∈ users d ∧ u_email u = e.
Proof.
  unfold users_find_one. induction (users d) as [|x l IH]; simpl; [done|].
  case_bool_decide as Hx.
  - intros [= ->]. split; [left | done].
  - intros Hu. destruct (IH Hu). split; [by right | done].
Qed.

Lemma users_find_one_None (e : string) (d : DB) :
  (∀ u, u ∈ users d → u_email u ≠ e) → users_find_one e d = None.
Proof.
  intros Hnone. destruct (users_find_one e d) as [u|] eqn:Hu; [|done].
  apply users_find_one_email in Hu as [Hin He]. by destruct (Hnone u Hin).
Qed.

Lemma update_first_no_match {A} (p : A → bool) (f : A → A) (l : list A) :
  List.find p l = None → update_first p f l = l.
Proof.
  induction l as [|x l IH]; simpl; [done|].
  destruct (p x); [done|]. intros Hl. by rewrite IH.
Qed.

Lemma update_first_split {A} (p : A → bool) (f : A → A) (l : list A)
    (u : A) :
  List.find p l = Some u →
  ∃ l1 l2, l = l1 ++ u :: l2
           ∧ Forall (λ x, p x = false) l1
           ∧ update_first p f l = l1 ++ f u :: l2.
Proof.
  induction l as [|x l IH]; simpl; [done|].
  destruct (p x) eqn:Hx.
  - intros [= ->]. by exists [], l.
  - intros Hu. destruct (IH Hu) as (l1 & l2 & -> & Hl1 & ->).
    exists (x :: l1), l2. split_and!; [done | by constructor | done].
Qed.

Lemma otp_find_one_latest_ext (e : string) (d d' : DB) :
  otp_codes d = otp_codes d' →
  otp_find_one_latest e d = otp_find_one_latest e d'.
Proof. unfold otp_find_one_latest. by intros ->. Qed.

Lemma otp_find_one_latest_no_match (e : string) (d : DB) :
  (∀ r, r ∈ otp_codes d → o_email r ≠ e) → otp_find_one_latest e d = None.
Proof.
  intros Hnone.
  destruct (otp_find_one_latest e d) as [r|] eqn:Hr; [|done].
  apply otp_find_one_latest_Some in Hr as (Hin & He & _).
  by destruct (Hnone r Hin).
Qed.

Lemma bearer_token_accepted (env : Env) (p : payload) (exp : Z) (w : World) :
  JwtLaws (jwt env) →
  private_claims p →
  p !! "exp" = Some (JInt exp) → clock_reading w < exp * 1000000 →
  py_truthy (p !! "user_id") = true → py_truthy (p !! "email") = true →
  get_current_user env
    (Some ("Bearer " +:+ jwt_encode (jwt env) p (JWT_SECRET env) JWT_ALG)) w
  = (Ret p, after_read w).
Proof.
  intros L Hprivate Hexp Hlt Hu He.
  destruct (jwt_encode_compact _ L p (JWT_SECRET env) JWT_ALG) as [Hne Hns].
  rewrite get_current_user_eq by apply bearer_header_nonempty.
  rewrite py_split_bearer by done. simpl.
  rewrite (jwt_decode_encode _ L _ _ _ _ exp); [| by left | done..].
  by rewrite Hu, He.
Qed.

Lemma bearer_token_expired (env : Env) (p : payload) (exp : Z) (w : World) :
  JwtLaws (jwt env) →
  p !! "exp" = Some (JInt exp) → exp * 1000000 ≤ clock_reading w →
  (get_current_user env
     (Some ("Bearer " +:+ jwt_encode (jwt env) p (JWT_SECRET env) JWT_ALG))
     w).1
  = Raise unauthorized.
Proof.
  intros L Hexp Hle.
  destruct (jwt_encode_compact _ L p (JWT_SECRET env) JWT_ALG) as [Hne Hns].
  apply (get_current_user_decode_raises env _ "Bearer"
           (jwt_encode (jwt env) p (JWT_SECRET env) JWT_ALG));
    [by apply py_split_bearer|].
  intros q Hq.
  apply (jwt_decode_sound _ L) in Hq as (_ & _ & Hvalid).
  specialize (Hvalid exp Hexp). lia.
Qed.

(** ** signup and login, path by path *)

(** X5. [signup] with an email no stored user has, and a password the
    hasher takes, answers "OTP sent to email" and appends one user: the
    name and email of the request, the hash of the request's password
    under the salt drawn, [is_verified] false, [created_at] and
    [updated_at] from the first two clock reads cut to whole
    milliseconds, no [last_login]; [find_one] on the email then returns
    that user.  With a password the hasher refuses, [signup] ends in the
    hasher's [ValueError] and stores nothing. *)
Theorem signup_creates_unverified_user (env : Env) (body : SignupBody)
    (w : World) :
  (∀ u, u ∈ users (w_db w) → u_email u ≠ sb_email body) →
  if secret_ok (sb_password body) then
    let u := mkUser (next_oid (w_db w)) (sb_name body) (sb_email body)
               (Some (ctx_hash (pwd_context env) (sb_password body)
                               (next_salt w)))
               (Some false) (Some (bson_datetime (nth_reading 0 w)))
               (Some (bson_datetime (nth_reading 1 w))) None in
    (signup env body w).1
    = Ret (SignupResponse true "OTP sent to email" (sb_email body))
    ∧ users (w_db (signup env body w).2) = users (w_db w) ++ [u]
    ∧ users_find_one (sb_email body) (w_db (signup env body w).2) = Some u
    ∧ conversations (w_db (signup env body w).2) = conversations (w_db w)
  else
    (∃ msg, (signup env body w).1 = Raise (ValueError msg))
    ∧ w_db (signup env body w).2 = w_db w.
Proof.
  intros Hnone. apply users_find_one_None in Hnone.
  destruct (secret_ok (sb_password body)) eqn:Hok.
  - intros u. rewrite signup_new by done. simpl. split_and!; try done.
    unfold users_find_one in *. simpl. rewrite find_app, Hnone. simpl.
    by rewrite bool_decide_eq_true_2.
  - destruct (signup_refused env body w Hnone Hok) as (msg & w' & -> & Hdb).
    split; [by eexists | done].
Qed.

Lemma signup_creates_unverified_user_witness :
  users_find_one "a@x.com"
    (w_db (signup ref_env demo_signup (demo_world demo_clock)).2)
  = Some (mkUser 0%N "A" "a@x.com" (Some (ref_hash "p1" "salt-a"))
                 (Some false) (Some 10000) (Some 20000) None)
  ∧ w_db (signup ref_env (mkSignupBody "A" "a@x.com" nul_password)
            (demo_world demo_clock)).2
    = w_db (demo_world demo_clock).
Proof.
  split.
  - refine (proj1 (proj2 (proj2 (signup_creates_unverified_user ref_env
                                   demo_signup (demo_world demo_clock) _)))).
    by intros u ?%elem_of_nil.
  - refine (proj2 (signup_creates_unverified_user ref_env
                     (mkSignupBody "A" "a@x.com" nul_password)
                     (demo_world demo_clock) _)).
    by intros u ?%elem_of_nil.
Defined.

(** X6. [login] of a verified user with a password that verifies returns
    [verified] true, the public projection of the user and a token, and
    changes nothing in the store.  The token's [exp] is the clock
    reading plus 24 hours in whole seconds, rounded down: the guard
    accepts the token while the clock is before that second, yielding
    [str(_id)] and the email of the user, and answers 401 from that
    second on. *)
Theorem login_verified_token (env : Env) (body : LoginBody) (w : World)
    (u : Users) :
  JwtLaws (jwt env) →
  lb_email body ≠ "" →
  users_find_one (lb_email body) (w_db w) = Some u →
  ctx_verify (pwd_context env) (lb_password body) (default "" (u_password u))
  = Ret true →
  u_is_verified u = Some true →
  let exp := numeric_date (clock_reading w + timedelta_minutes (60 * 24)) in
  ∃ token,
    login env body w
    = (Ret (LoginResponse true true token
              (mkUserPublic (str_oid (u__id u)) (u_name u) (lb_email body))),
       after_read w)
    ∧ w_db (after_read w) = w_db w
    ∧ (∀ w2, clock_reading w2 < exp * 1000000 →
         ∃ p, get_current_user env (Some ("Bearer " +:+ token)) w2
              = (Ret p, after_read w2)
            ∧ p !! "user_id" = Some (JStr (str_oid (u__id u)))
            ∧ p !! "email" = Some (JStr (lb_email body)))
    ∧ (∀ w2, exp * 1000000 ≤ clock_reading w2 →
         (get_current_user env (Some ("Bearer " +:+ token)) w2).1
         = Raise unauthorized).
Proof.
  intros L Hemail Hu Hok Hverified exp.
  destruct (users_find_one_email _ _ _ Hu) as [_ He].
  rewrite (login_known env body w u Hu), Hok, Hverified. simpl. fold exp.
  destruct (identity_claims_exp (str_oid (u__id u)) (u_email u) exp)
    as (Hexp & Huid & Hem).
  eexists. split_and!; [by rewrite <- He | apply after_read_db | |].
  - intros w2 Hlt. eexists. split_and!.
    + eapply bearer_token_accepted;
        [done | apply identity_claims_private | done | done | |].
      * rewrite Huid. apply py_truthy_str, str_oid_nonempty.
      * rewrite Hem. apply py_truthy_str. by rewrite He.
    + done.
    + by rewrite Hem, He.
  - intros w2 Hle. by eapply bearer_token_expired.
Qed.

Lemma login_verified_token_witness :
  ∃ token,
    login ref_env demo_login
      (verify_otp ref_env demo_verify (demo_world_at 100)).2
    = (Ret (LoginResponse true true token (mkUserPublic "0" "A" "a@x.com")),
       after_read (verify_otp ref_env demo_verify (demo_world_at 100)).2).
Proof.
  edestruct (login_verified_token ref_env demo_login
               (verify_otp ref_env demo_verify (demo_world_at 100)).2)
    as (token & Hrun & _).
  - apply ref_jwt_laws.
  - done.
  - vm_compute. reflexivity.
  - vm_compute. reflexivity.
  - reflexivity.
  - exists token. exact Hrun.
Defined.

(** X7. Whatever the request, [login] leaves the users and the
    conversations as they were (it writes no [last_login]) and either
    leaves the challenges as they were or appends one for the email of
    the request. *)
Theorem login_store_frame (env : Env) (body : LoginBody) (w : World) :
  users (w_db (login env body w).2) = users (w_db w)
  ∧ conversations (w_db (login env body w).2) = conversations (w_db w)
  ∧ (otp_codes (w_db (login env body w).2) = otp_codes (w_db w)
     ∨ ∃ r, otp_codes (w_db (login env body w).2) = otp_codes (w_db w) ++ [r]
            ∧ o_email r = lb_email body).
Proof.
  destruct (users_find_one (lb_email body) (w_db w)) as [u|] eqn:Hu.
  - rewrite (login_known env body w u Hu).
    destruct (ctx_verify _ _ _) as [[]|e]; simpl; try by auto.
    destruct (default false (u_is_verified u)); simpl.
    + rewrite after_read_db. auto.
    + split_and!; [done | done |]. right. by eexists.
  - rewrite login_unknown by done. auto.
Qed.

(** X8. A user whose [is_verified] is false or absent gets no token from
    [login], also with the right password: the answer is [verified]
    false and "OTP sent to email". *)
Theorem login_unverified_no_token (env : Env) (body : LoginBody) (w : World)
    (u : Users) :
  users_find_one (lb_email body) (w_db w) = Some u →
  ctx_verify (pwd_context env) (lb_password body) (default "" (u_password u))
  = Ret true →
  u_is_verified u ≠ Some true →
  (login env body w).1 = Ret (LoginOtpResponse true false "OTP sent to email").
Proof.
  intros Hu Hok Hflag. rewrite (login_known env body w u Hu), Hok.
  by destruct (u_is_verified u) as [[]|].
Qed.

Lemma login_unverified_no_token_witness :
  (login ref_env demo_login (world_of db_without_flag)).1
  = Ret (LoginOtpResponse true false "OTP sent to email").
Proof.
  eapply (login_unverified_no_token ref_env demo_login
            (world_of db_without_flag)).
  - vm_compute. reflexivity.
  - vm_compute. reflexivity.
  - discriminate.
Defined.

(** ** verify_otp, path by path *)

Lemma db_set_verified_no_user (e : string) (t : datetime) (d : DB) :
  users_find_one e d = None → db_set_verified e t d = d.
Proof.
  intros Hnone. unfold db_set_verified.
  rewrite update_first_no_match by done. by destruct d.
Qed.

(** X9. A [verify_otp] that raises, for whatever reason, leaves the
    store as it was: no user is marked verified and no challenge is
    touched. *)
Theorem verify_otp_failure_keeps_store (env : Env) (body : VerifyOtpBody)
    (w w' : World) (e : exn) :
  verify_otp env body w = (Raise e, w') → w_db w' = w_db w.
Proof.
  rewrite verify_otp_eq.
  destruct (otp_find_one_latest _ _) as [record|]; [|by intros [= _ <-]].
  simpl. destruct (otp_expired record w);
    [intros [= _ <-]; apply after_expiry_check_db|].
  destruct (ctx_verify _ _ _) as [[]|e'];
    [|intros [= _ <-]; apply after_expiry_check_db..].
  unfold after_mark_verified. simpl.
  rewrite users_find_one_set_verified.
  destruct (users_find_one (vb_email body) (w_db w)) as [u|] eqn:Hu;
    [done|].
  simpl. intros [= _ <-]. simpl. by apply db_set_verified_no_user.
Qed.

Lemma verify_otp_failure_keeps_store_witness :
  w_db (verify_otp ref_env demo_verify_wrong (demo_world_at 100)).2
  = w_db (demo_world_at 100).
Proof.
  eapply (verify_otp_failure_keeps_store ref_env demo_verify_wrong
            (demo_world_at 100) _ (HTTPException 400 "Invalid OTP")).
  vm_compute. reflexivity.
Defined.

(** X10. A [verify_otp] that succeeds changes one document only: the
    first user with the email gets [is_verified] true and a new
    [updated_at]; its other fields, the users before and after it, the
    challenges (the one just used included) and the conversations are as
    they were.  The response carries the public projection of that
    user. *)
Theorem verify_otp_success_effect (env : Env) (body : VerifyOtpBody)
    (w w' : World) (resp : Response) :
  verify_otp env body w = (Ret resp, w') →
  ∃ before u after t token,
    users (w_db w) = before ++ u :: after
    ∧ Forall (λ x, u_email x ≠ vb_email body) before
    ∧ u_email u = vb_email body
    ∧ users (w_db w')
      = before ++ mkUser (u__id u) (u_name u) (u_email u) (u_password u)
                         (Some true) (u_created_at u) (Some t)
                         (u_last_login u) :: after
    ∧ otp_codes (w_db w') = otp_codes (w_db w)
    ∧ conversations (w_db w') = conversations (w_db w)
    ∧ resp = VerifyResponse true token
               (mkUserPublic (str_oid (u__id u)) (u_name u) (u_email u)).
Proof.
  rewrite verify_otp_eq.
  destruct (otp_find_one_latest _ _) as [record|]; [|done]. simpl.
  destruct (otp_expired record w); [done|].
  destruct (ctx_verify _ _ _) as [[]|e']; try done.
  unfold after_mark_verified. simpl.
  rewrite users_find_one_set_verified.
  destruct (users_find_one (vb_email body) (w_db w)) as [u|] eqn:Hu;
    [|done].
  simpl. intros [= <- <-].
  destruct (users_find_one_email _ _ _ Hu) as [_ He].
  unfold users_find_one in Hu.
  destruct (update_first_split _
              (set_verified
                 (bson_datetime (clock_reading (after_expiry_check record w))))
              _ _ Hu) as (l1 & l2 & Hsplit & Hl1 & Hupd).
  exists l1, u, l2. eexists _, _.
  rewrite after_read_db. simpl. rewrite Hupd.
  split_and!; try done.
  apply list.Forall_forall. intros x Hx.
  rewrite list.Forall_forall in Hl1. specialize (Hl1 x Hx). simpl in Hl1.
  by apply bool_decide_eq_false in Hl1.
Qed.

Lemma verify_otp_success_effect_witness :
  ∃ before u after t token,
    users (w_db (demo_world_at 100)) = before ++ u :: after
    ∧ Forall (λ x, u_email x ≠ vb_email demo_verify) before
    ∧ u_email u = vb_email demo_verify
    ∧ users (w_db (verify_otp ref_env demo_verify (demo_world_at 100)).2)
      = before ++ mkUser (u__id u) (u_name u) (u_email u) (u_password u)
                         (Some true) (u_created_at u) (Some t)
                         (u_last_login u) :: after
    ∧ otp_codes (w_db (verify_otp ref_env demo_verify (demo_world_at 100)).2)
      = otp_codes (w_db (demo_world_at 100))
    ∧ conversations
        (w_db (verify_otp ref_env demo_verify (demo_world_at 100)).2)
      = conversations (w_db (demo_world_at 100))
    ∧ (verify_otp ref_env demo_verify (demo_world_at 100)).1
      = Ret (VerifyResponse true token
               (mkUserPublic (str_oid (u__id u)) (u_name u) (u_email u))).
Proof.
  destruct (verify_otp ref_env demo_verify (demo_world_at 100))
    as [[resp|e] w'] eqn:Hrun; [|vm_compute in Hrun; discriminate].
  destruct (verify_otp_success_effect ref_env demo_verify
              (demo_world_at 100) w' resp Hrun)
    as (before & u & after & t & token & H).
  exists before, u, after, t, token. simpl.
  destruct H as (? & ? & ? & ? & ? & ? & ->). by split_and!.
Defined.

(** X11. A challenge is not used up: after a [verify_otp] that
    succeeded, the same request succeeds again on the resulting store
    for as long as the clock has not passed the challenge's expiry. *)
Theorem verify_otp_can_be_repeated (env : Env) (body : VerifyOtpBody)
    (w w' w2 : World) (resp : Response) :
  verify_otp env body w = (Ret resp, w') →
  w_db w2 = w_db w' →
  (∀ record e,
     otp_find_one_latest (vb_email body) (w_db w) = Some record →
     o_expires_at record = Some e → clock_reading w2 ≤ e) →
  verify_otp_succeeds env body w2.
Proof.
  intros Hrun Hdb Hclock. unfold verify_otp_succeeds.
  rewrite verify_otp_eq in Hrun. rewrite verify_otp_eq.
  destruct (otp_find_one_latest (vb_email body) (w_db w)) as [record|]
    eqn:Hlatest; [|done].
  simpl in Hrun. destruct (otp_expired record w); [done|].
  destruct (ctx_verify _ _ _) as [[]|e'] eqn:Hok; try done.
  unfold after_mark_verified in Hrun. simpl in Hrun.
  rewrite users_find_one_set_verified in Hrun.
  destruct (users_find_one (vb_email body) (w_db w)) as [u|] eqn:Hu;
    [|done].
  simpl in Hrun. injection Hrun as _ <-.
  rewrite after_read_db in Hdb. simpl in Hdb.
  rewrite (otp_find_one_latest_ext _ (w_db w2) (w_db w)), Hlatest
    by by rewrite Hdb.
  simpl.
  rewrite (proj2 (otp_expired_false record w2)), Hok
    by (intros e He; by eapply Hclock).
  unfold after_mark_verified. simpl.
  rewrite users_find_one_set_verified, Hdb, users_find_one_set_verified, Hu.
  simpl. eauto.
Qed.

Lemma verify_otp_can_be_repeated_witness :
  verify_otp_succeeds ref_env demo_verify
    (verify_otp ref_env demo_verify (demo_world_at 100)).2.
Proof.
  destruct (verify_otp ref_env demo_verify (demo_world_at 100))
    as [[resp|e] w'] eqn:Hrun; [|vm_compute in Hrun; discriminate].
  apply (verify_otp_can_be_repeated ref_env demo_verify
           (demo_world_at 100) w' w' resp Hrun eq_refl).
  intros record e Hlatest He.
  vm_compute in Hlatest. injection Hlatest as <-.
  injection He as <-.
  vm_compute in Hrun. injection Hrun as _ <-.
  vm_compute. discriminate.
Defined.

(** X12. A challenge without [expires_at] never expires: [verify_otp]
    does not read the clock for it, a candidate that does not verify is
    answered "Invalid OTP" with the world untouched, and one that
    verifies succeeds whatever the time. *)
Theorem verify_otp_without_expiry (env : Env) (body : VerifyOtpBody)
    (w : World) (record : Otp_codes) :
  otp_find_one_latest (vb_email body) (w_db w) = Some record →
  o_expires_at record = None →
  match ctx_verify (pwd_context env) (vb_otp body)
                   (default "" (o_otp record)) with
  | Raise e => verify_otp env body w = (Raise e, w)
  | Ret false =>
      verify_otp env body w = (Raise (HTTPException 400 "Invalid OTP"), w)
  | Ret true =>
      ∀ u, users_find_one (vb_email body) (w_db w) = Some u →
           ∃ token w',
             verify_otp env body w
             = (Ret (VerifyResponse true token (user_public u)), w')
  end.
Proof.
  intros Hlatest Hnone. rewrite verify_otp_eq, Hlatest. simpl.
  unfold otp_expired, after_expiry_check, after_mark_verified.
  rewrite Hnone.
  destruct (ctx_verify _ _ _) as [[]|e]; try done.
  intros u Hu. simpl. rewrite users_find_one_set_verified, Hu. simpl.
  by eexists _, _.
Qed.

Lemma verify_otp_without_expiry_witness :
  ∃ token w',
    verify_otp ref_env demo_verify
      (mkWorld db_without_expiry 0 [9000000000; 9000000001] [])
    = (Ret (VerifyResponse true token (mkUserPublic "0" "A" "a@x.com")), w').
Proof.
  pose proof (verify_otp_without_expiry ref_env demo_verify
                (mkWorld db_without_expiry 0 [9000000000; 9000000001] [])
                (mkOtp 1%N "a@x.com" (Some (ref_hash "123456" "salt-b"))
                       (Some 30000) None)
                eq_refl eq_refl) as H.
  replace (ctx_verify (pwd_context ref_env) (vb_otp demo_verify)
             (default "" (o_otp (mkOtp 1%N "a@x.com"
                                   (Some (ref_hash "123456" "salt-b"))
                                   (Some 30000) None))))
    with (Ret true) in H by (vm_compute; reflexivity).
  exact (H _ eq_refl).
Defined.

(** X13. With no challenge stored for the email, [verify_otp] answers
    400 "OTP not found" and touches nothing, the clock included. *)
Theorem verify_otp_not_found (env : Env) (body : VerifyOtpBody) (w : World) :
  (∀ r, r ∈ otp_codes (w_db w) → o_email r ≠ vb_email body) →
  verify_otp env body w = (Raise (HTTPException 400 "OTP not found"), w).
Proof.
  intros Hnone. rewrite verify_otp_eq.
  by rewrite otp_find_one_latest_no_match.
Qed.

Lemma verify_otp_not_found_witness :
  verify_otp ref_env (mkVerifyOtpBody "nobody@x.com" "123456")
    (demo_world_at 100)
  = (Raise (HTTPException 400 "OTP not found"), demo_world_at 100).
Proof.
  apply (verify_otp_not_found ref_env (mkVerifyOtpBody "nobody@x.com" "123456")
           (demo_world_at 100)).
  intros r Hin. vm_compute in Hin.
  apply list_elem_of_singleton in Hin as ->. discriminate.
Defined.

(** X14. A challenge whose email has no user record: a candidate that
    passes the expiry guard and the hash comparison makes [verify_otp]
    end in a [TypeError] (the user looked up is [None]), with the store
    unchanged. *)
Theorem verify_otp_without_user (env : Env) (body : VerifyOtpBody)
    (w : World) (record : Otp_codes) :
  otp_find_one_latest (vb_email body) (w_db w) = Some record →
  otp_expired record w = false →
  ctx_verify (pwd_context env) (vb_otp body) (default "" (o_otp record))
  = Ret true →
  (∀ u, u ∈ users (w_db w) → u_email u ≠ vb_email body) →
  (verify_otp env body w).1
  = Raise (TypeError "'NoneType' object is not subscriptable")
  ∧ w_db (verify_otp env body w).2 = w_db w.
Proof.
  intros Hlatest Hexp Hok Hnone. apply users_find_one_None in Hnone.
  rewrite verify_otp_eq, Hlatest. simpl. rewrite Hexp, Hok.
  unfold after_mark_verified. simpl.
  rewrite users_find_one_set_verified, Hnone. simpl.
  split; [done | by apply db_set_verified_no_user].
Qed.

Lemma verify_otp_without_user_witness :
  (verify_otp ref_env demo_verify (world_of db_orphan_challenge)).1
  = Raise (TypeError "'NoneType' object is not subscriptable").
Proof.
  eapply (verify_otp_without_user ref_env demo_verify
            (world_of db_orphan_challenge)).
  - vm_compute. reflexivity.
  - vm_compute. reflexivity.
  - vm_compute. reflexivity.
  - by intros u ?%elem_of_nil.
Defined.

(** ** One request, one step of the store *)

Lemma otp_entry_complete (env : Env) (email : string) (w : World) :
  otp_complete env (otp_entry env email w).
Proof. unfold otp_complete, otp_entry. simpl. eauto. Qed.

Lemma signup_user_complete (env : Env) (body : SignupBody) (w : World) :
  user_complete (signup_user env body w).
Proof. unfold user_complete, signup_user. simpl. by split_and!. Qed.

Lemma handle_db_step (env : Env) (r : Request) (w : World) :
  db_step env r (w_db w) (w_db (handle env r w).2).
Proof.
  destruct r as [body|body|body|body|authorization]; simpl.
  - destruct (users_find_one (sb_email body) (w_db w)) as [u|] eqn:Hu.
    + rewrite (signup_existing env body w u) by done. constructor.
    + destruct (secret_ok (sb_password body)) eqn:Hok.
      * rewrite signup_new by done. simpl.
        apply step_signup;
          [done | done | apply signup_user_complete | done | done
          | apply otp_entry_complete].
      * destruct (signup_refused env body w Hu Hok) as (msg & w' & -> & Hdb).
        simpl. rewrite Hdb. constructor.
  - destruct (users_find_one (lb_email body) (w_db w)) as [u|] eqn:Hu.
    + rewrite (login_known env body w u) by done.
      destruct (ctx_verify _ _ _) as [[]|e]; simpl; try constructor.
      destruct (default false (u_is_verified u)); simpl.
      * rewrite after_read_db. constructor.
      * apply step_issue;
          [done | simpl; by rewrite Hu | apply otp_entry_complete].
    + rewrite login_unknown by done. constructor.
  - rewrite verify_otp_eq.
    destruct (otp_find_one_latest _ _) as [record|]; [|constructor]. simpl.
    destruct (otp_expired record w); simpl;
      [rewrite after_expiry_check_db; constructor|].
    destruct (ctx_verify _ _ _) as [[]|e]; simpl;
      [|rewrite after_expiry_check_db; constructor..].
    destruct (users_find_one _ _); simpl; rewrite ?after_read_db;
      apply step_verify.
  - rewrite resend_otp_eq.
    destruct (users_find_one _ _) as [u|] eqn:Hu; simpl; [|constructor].
    apply step_issue;
      [done | simpl; by rewrite Hu | apply otp_entry_complete].
  - unfold GET_conversations. unfold_M.
    pose proof (get_current_user_db env authorization w) as Hdb.
    destruct (get_current_user env authorization w) as [[p|e] w']; simpl in *;
      [|rewrite Hdb; constructor].
    unfold list_conversations. unfold_M.
    destruct (p !! "user_id"); simpl; rewrite Hdb; constructor.
Qed.

Lemma fmap_update_first {A B} (g : A → B) (p : A → bool) (f : A → A)
    (l : list A) :
  (∀ x, g (f x) = g x) → g <$> update_first p f l = g <$> l.
Proof.
  intros Hg. induction l as [|x l IH]; simpl; [done|].
  destruct (p x); csimpl; [by rewrite Hg | by rewrite IH].
Qed.

Lemma Forall_update_first {A} (P : A → Prop) (p : A → bool) (f : A → A)
    (l : list A) :
  (∀ x, P x → P (f x)) → Forall P l → Forall P (update_first p f l).
Proof.
  intros Hf. induction 1 as [|x l Hx Hl IH]; simpl; [constructor|].
  destruct (p x); constructor; auto.
Qed.

Lemma set_verified_complete (t : datetime) (u : Users) :
  user_complete u → user_complete (set_verified t u).
Proof.
  unfold user_complete. simpl. intros (? & ? & ? & ? & ?). by split_and!.
Qed.

Lemma db_step_invariant (env : Env) (r : Request) (d d' : DB) :
  db_step env r d d' → store_invariant env d → store_invariant env d'.
Proof.
  intros Hstep (Hdup & Husers & Hotps & Hconv & Howned).
  destruct Hstep as [r d|r x d _ Hx Hcomplete
                    |body u x d Hnone He Hu _ Hxe Hx|body t d];
    unfold store_invariant; simpl.
  - done.
  - split_and!; [done | done | | done | by apply otp_owned_add_otp].
    apply Forall_app. split; [done | by constructor].
  - split_and!; [| | | done |].
    + rewrite fmap_app. simpl. apply (proj2 (list.NoDup_app _ _)).
      split_and!; [done | |].
      * intros e (u' & -> & Hin)%list_elem_of_fmap
          Heq%list_elem_of_singleton.
        destruct (users_find_one_Some (sb_email body) d u' Hin) as [? Hsome];
          [by rewrite Heq | congruence].
      * apply NoDup_singleton.
    + apply Forall_app. split; [done | by constructor].
    + apply Forall_app. split; [done | by constructor].
    + apply otp_owned_add_otp; [by apply otp_owned_add_user|].
      apply users_find_one_add_user. right. by rewrite Hxe.
  - split_and!; [| | done | done | by apply otp_owned_set_verified].
    + by rewrite fmap_update_first.
    + apply Forall_update_first; [apply set_verified_complete | done].
Qed.

Lemma reachable_invariant (env : Env) (d : DB) :
  reachable env d → store_invariant env d.
Proof.
  induction 1 as [|r w _ IH].
  - unfold store_invariant. simpl.
    split_and!; [constructor | constructor | constructor | done |].
    by intros r ?%elem_of_nil.
  - eapply db_step_invariant; [apply handle_db_step | done].
Qed.

Lemma users_find_one_unique (d : DB) (u : Users) :
  NoDup (u_email <$> users d) → u ∈ users d →
  users_find_one (u_email u) d = Some u.
Proof.
  unfold users_find_one. induction (users d) as [|x l IH]; csimpl.
  - by intros _ ?%elem_of_nil.
  - intros [Hx Hl]%list.NoDup_cons [->|Hin]%elem_of_cons.
    + by rewrite bool_decide_eq_true_2.
    + rewrite bool_decide_eq_false_2; [by apply IH|].
      intros Heq. apply Hx. rewrite Heq. by apply list_elem_of_fmap_2.
Qed.

(** ** Invariants of the reachable stores *)

(** X16. In every store the handlers can reach, each user carries a
    password hash, an [is_verified] flag and both timestamps, and no
    [last_login]; each challenge carries the hash of the fixed code
    "123456" under some salt, a [created_at] and an [expires_at].  The
    defaults of the [.get] calls are never taken on such a store. *)
Theorem reachable_documents_complete (env : Env) (d : DB) :
  reachable env d →
  (∀ u, u ∈ users d →
        is_Some (u_password u) ∧ is_Some (u_is_verified u)
        ∧ is_Some (u_created_at u) ∧ is_Some (u_updated_at u)
        ∧ u_last_login u = None)
  ∧ (∀ r, r ∈ otp_codes d →
          (∃ salt, o_otp r = Some (ctx_hash (pwd_context env) "123456" salt))
          ∧ is_Some (o_created_at r) ∧ is_Some (o_expires_at r)).
Proof.
  intros (_ & Husers & Hotps & _)%reachable_invariant.
  rewrite list.Forall_forall in Husers. rewrite list.Forall_forall in Hotps.
  split; [exact Husers | exact Hotps].
Qed.

Lemma reachable_documents_complete_witness :
  (∀ u, u ∈ users demo_db →
        is_Some (u_password u) ∧ is_Some (u_is_verified u)
        ∧ is_Some (u_created_at u) ∧ is_Some (u_updated_at u)
        ∧ u_last_login u = None)
  ∧ (∀ r, r ∈ otp_codes demo_db →
          (∃ salt, o_otp r
                   = Some (ctx_hash (pwd_context ref_env) "123456" salt))
          ∧ is_Some (o_created_at r) ∧ is_Some (o_expires_at r)).
Proof.
  exact (reachable_documents_complete ref_env demo_db demo_db_reachable).
Defined.

(** X17. No handler inserts a conversation: on every store the handlers
    can reach, the listing answers success with an empty list whenever
    the guard accepts the header. *)
Theorem reachable_listing_empty (env : Env) (authorization : option string)
    (w w' : World) (p : payload) :
  reachable env (w_db w) →
  get_current_user env authorization w = (Ret p, w') →
  conversations (w_db w) = []
  ∧ GET_conversations env authorization w
    = (Ret (ConversationsResponse true []), w').
Proof.
  intros (_ & _ & _ & Hconv & _)%reachable_invariant Hguard.
  split; [done|].
  pose proof (get_current_user_db env authorization w) as Hdb.
  unfold GET_conversations. unfold_M. rewrite Hguard in *. simpl in Hdb.
  apply get_current_user_returns in Hguard
    as (_ & _ & _ & _ & _ & _ & _ & Hid & _ & _).
  unfold list_conversations. unfold_M.
  destruct (p !! "user_id") as [v|]; [|done].
  unfold conversations_find_sorted. by rewrite Hdb, Hconv.
Qed.

Lemma reachable_listing_empty_witness :
  conversations (w_db (demo_world_at 100)) = []
  ∧ GET_conversations ref_env (Some ("Bearer " +:+ demo_token))
      (demo_world_at 100)
    = (Ret (ConversationsResponse true []), after_read (demo_world_at 100)).
Proof.
  apply (reachable_listing_empty ref_env (Some ("Bearer " +:+ demo_token))
           (demo_world_at 100) (after_read (demo_world_at 100))
           demo_claims).
  - apply demo_db_reachable.
  - vm_compute. reflexivity.
Defined.

(** X18. The code is always "123456": on every store the handlers can
    reach, with a hasher that verifies what it hashed, [verify_otp] with
    "123456" succeeds for any email whose most recent challenge has not
    expired. *)
Theorem reachable_fixed_code_accepted (env : Env) (email : string)
    (w : World) (record : Otp_codes) :
  HashLaws (pwd_context env) →
  reachable env (w_db w) →
  otp_find_one_latest email (w_db w) = Some record →
  otp_expired record w = false →
  verify_otp_succeeds env (mkVerifyOtpBody email "123456") w.
Proof.
  intros Hlaws (_ & _ & Hotps & _ & Howned)%reachable_invariant Hlatest Hexp.
  destruct (otp_find_one_latest_Some _ _ _ Hlatest) as (Hin & He & _).
  rewrite list.Forall_forall in Hotps.
  destruct (Hotps record Hin) as ((salt & Hhash) & _).
  destruct (Howned record Hin) as [u Hu]. rewrite He in Hu.
  unfold verify_otp_succeeds. rewrite verify_otp_eq. simpl.
  rewrite Hlatest. simpl. rewrite Hexp, Hhash. simpl.
  rewrite (ctx_verify_hash _ Hlaws) by done.
  unfold after_mark_verified. simpl.
  rewrite users_find_one_set_verified, Hu. simpl. eauto.
Qed.

Lemma reachable_fixed_code_accepted_witness :
  verify_otp_succeeds ref_env (mkVerifyOtpBody "a@x.com" "123456")
    (demo_world_at 100).
Proof.
  eapply (reachable_fixed_code_accepted ref_env "a@x.com" (demo_world_at 100)).
  - apply ref_hash_laws.
  - apply demo_db_reachable.
  - vm_compute. reflexivity.
  - vm_compute. reflexivity.
Defined.

(** ** What a request can and cannot change *)

Lemma find_update_first_other {A} (p q : A → bool) (f : A → A) (l : list A) :
  (∀ x, p x = true → q x = false ∧ q (f x) = false) →
  List.find q (update_first p f l) = List.find q l.
Proof.
  intros Hpq. induction l as [|x l IH]; simpl; [done|].
  destruct (p x) eqn:Hp; simpl.
  - destruct (Hpq x Hp) as [-> ->]. done.
  - by rewrite IH.
Qed.

Lemma users_find_one_set_verified_other (e e' : string) (t : datetime)
    (d : DB) :
  e ≠ e' →
  users_find_one e (db_set_verified e' t d) = users_find_one e d.
Proof.
  intros Hne. unfold users_find_one. simpl.
  apply find_update_first_other. intros x Hx.
  apply bool_decide_eq_true in Hx. simpl.
  split; apply bool_decide_eq_false; congruence.
Qed.

(** X19. No request deletes or rewrites what is stored: after any
    request the challenges before are a prefix of the challenges after,
    the users before are a prefix of the users after as far as [_id],
    name, email, password hash and [created_at] go, and the
    conversations are as they were. *)
Theorem handle_never_deletes (env : Env) (r : Request) (w : World) :
  otp_codes (w_db w) `prefix_of` otp_codes (w_db (handle env r w).2)
  ∧ (user_identity <$> users (w_db w))
    `prefix_of` (user_identity <$> users (w_db (handle env r w).2))
  ∧ conversations (w_db (handle env r w).2) = conversations (w_db w).
Proof.
  destruct (handle_db_step env r w)
    as [r d|r x d _ _ _|body u x d _ _ _ _ _ _|body t d]; simpl.
  - done.
  - split_and!; [by apply prefix_app_r | done | done].
  - split_and!; [by apply prefix_app_r | | done].
    rewrite fmap_app. by apply prefix_app_r.
  - split_and!; [done | | done].
    by rewrite fmap_update_first.
Qed.

(** X20. Verified stays verified: a user that [find_one] returns for an
    email with [is_verified] true is, after any request, still what
    [find_one] returns for that email up to [updated_at], and still
    verified. *)
Theorem handle_keeps_verified (env : Env) (r : Request) (w : World)
    (e : string) (u : Users) :
  users_find_one e (w_db w) = Some u →
  u_is_verified u = Some true →
  ∃ u', users_find_one e (w_db (handle env r w).2) = Some u'
        ∧ u_is_verified u' = Some true
        ∧ user_identity u' = user_identity u.
Proof.
  intros Hu Hv.
  destruct (handle_db_step env r w)
    as [r d|r x d _ _ _|body u0 x d _ _ _ _ _ _|body t d].
  - by exists u.
  - by exists u.
  - exists u. split; [|done]. unfold users_find_one in *. simpl.
    by rewrite find_app, Hu.
  - destruct (decide (e = vb_email body)) as [->|Hne].
    + exists (set_verified t u). by rewrite users_find_one_set_verified, Hu.
    + exists u. by rewrite users_find_one_set_verified_other.
Qed.

Lemma handle_keeps_verified_witness :
  ∃ u', users_find_one "a@x.com"
          (w_db (handle ref_env (POST_login demo_login)
                   (verify_otp ref_env demo_verify (demo_world_at 50250)).2).2)
        = Some u'
        ∧ u_is_verified u' = Some true
        ∧ user_identity u'
          = user_identity
              (mkUser 0%N "A" "a@x.com" (Some (ref_hash "p1" "salt-a"))
                      (Some true) (Some 10000) (Some 50000) None).
Proof.
  apply (handle_keeps_verified ref_env (POST_login demo_login)
           (verify_otp ref_env demo_verify (demo_world_at 50250)).2
           "a@x.com").
  - vm_compute. reflexivity.
  - reflexivity.
Defined.

(** X21. Only [verify_otp] verifies: a request to any other route leaves
    the list of verified users exactly as it was. *)
Theorem only_verify_otp_verifies (env : Env) (r : Request) (w : World) :
  (∀ body, r ≠ POST_verify_otp body) →
  filter is_verified_user (users (w_db (handle env r w).2))
  = filter is_verified_user (users (w_db w)).
Proof.
  intros Hr.
  destruct (handle_db_step env r w)
    as [r d|r x d _ _ _|body u x d _ _ _ Hu _ _|body t d]; simpl.
  - done.
  - done.
  - rewrite list.filter_app, list.filter_cons_False, list.filter_nil.
    + by rewrite app_nil_r.
    + unfold is_verified_user. by rewrite Hu.
  - by destruct (Hr body).
Qed.

Lemma only_verify_otp_verifies_witness :
  filter is_verified_user
    (users (w_db (handle ref_env (POST_signup demo_signup)
                    (demo_world demo_clock)).2))
  = filter is_verified_user (users (w_db (demo_world demo_clock))).
Proof.
  apply (only_verify_otp_verifies ref_env (POST_signup demo_signup)
           (demo_world demo_clock)).
  intros body. discriminate.
Defined.

(** ** A newer challenge replaces the older ones *)

Lemma foldl_pick_latest_newer (l : list Otp_codes) (x : Otp_codes) :
  (∀ r, r ∈ l → dt_ltb (o_created_at r) (o_created_at x) = true) →
  foldl pick_latest None (l ++ [x]) = Some x.
Proof.
  intros Hold. rewrite foldl_app. simpl.
  pose proof (foldl_pick_latest l None) as Hl.
  destruct (foldl pick_latest None l) as [b|]; [|done].
  destruct Hl as ([?|Hin] & _); [done|]. simpl. by rewrite Hold.
Qed.

Lemma otp_find_one_latest_newer (e : string) (x : Otp_codes) (d : DB) :
  o_email x = e →
  (∀ r, r ∈ otp_codes d → o_email r = e →
        dt_ltb (o_created_at r) (o_created_at x) = true) →
  otp_find_one_latest e (db_add_otp x d) = Some x.
Proof.
  intros He Hold. unfold otp_find_one_latest. simpl.
  rewrite list.filter_app, list.filter_cons_True, list.filter_nil by done.
  apply foldl_pick_latest_newer.
  intros r [Hr Hin]%list_elem_of_filter. by apply Hold.
Qed.

(** X22. The last challenge issued is the one that counts: when
    [resend_otp] finds the user and its first clock reading, cut to
    whole milliseconds as the store keeps it, is later than the
    [created_at] of every challenge stored for the email, then, with a
    hasher that verifies what it hashed, [verify_otp] with "123456"
    succeeds on the resulting store until the clock passes the stored
    expiry, the second clock reading of the resend plus five minutes cut
    to whole milliseconds, whatever the state of the older challenges. *)
Theorem resend_otp_then_verify_otp (env : Env) (body : ResendOtpBody)
    (w w2 : World) (u : Users) :
  HashLaws (pwd_context env) →
  users_find_one (rb_email body) (w_db w) = Some u →
  (∀ r, r ∈ otp_codes (w_db w) → o_email r = rb_email body →
        dt_ltb (o_created_at r) (Some (bson_datetime (nth_reading 0 w)))
        = true) →
  w_db w2 = w_db (resend_otp env body w).2 →
  clock_reading w2 ≤ bson_datetime (nth_reading 1 w + timedelta_minutes 5) →
  verify_otp_succeeds env (mkVerifyOtpBody (rb_email body) "123456") w2
  ∧ ∃ x, otp_find_one_latest (rb_email body) (w_db w2) = Some x
         ∧ o_created_at x = Some (bson_datetime (nth_reading 0 w))
         ∧ o_expires_at x
           = Some (bson_datetime (nth_reading 1 w + timedelta_minutes 5)).
Proof.
  intros Hlaws Hu Hold Hdb Hclock.
  rewrite resend_otp_eq, Hu in Hdb. simpl in Hdb.
  set (x := otp_entry env (rb_email body) w) in *.
  assert (otp_find_one_latest (rb_email body) (w_db w2) = Some x) as Hlatest.
  { rewrite Hdb. by apply otp_find_one_latest_newer. }
  assert (users_find_one (rb_email body) (w_db w2) = Some u) as Hu2
    by by rewrite Hdb.
  assert (otp_expired x w2 = false) as Hexp.
  { apply otp_expired_false. by intros e [= <-]. }
  split; [|by exists x].
  unfold verify_otp_succeeds. rewrite verify_otp_eq. simpl.
  rewrite Hlatest. simpl. rewrite Hexp.
  unfold x at 1. simpl. rewrite (ctx_verify_hash _ Hlaws) by done.
  unfold after_mark_verified. simpl.
  rewrite users_find_one_set_verified, Hu2. simpl. eauto.
Qed.

Lemma resend_otp_then_verify_otp_witness :
  verify_otp_succeeds ref_env (mkVerifyOtpBody "a@x.com" "123456")
    (mkWorld (w_db (resend_otp ref_env demo_resend
                      (demo_world_at (demo_expiry + 1007))).2)
             0 [demo_expiry + timedelta_minutes 5 + 1000] []).
Proof.
  refine (proj1 (resend_otp_then_verify_otp ref_env demo_resend
                   (demo_world_at (demo_expiry + 1007)) _
                   (mkUser 0%N "A" "a@x.com" (Some (ref_hash "p1" "salt-a"))
                           (Some false) (Some 10000) (Some 20000) None)
                   ref_hash_laws _ _ _ _)).
  - vm_compute. reflexivity.
  - intros r Hin _. vm_compute in Hin.
    apply list_elem_of_singleton in Hin as ->. vm_compute. reflexivity.
  - reflexivity.
  - vm_compute. discriminate.
Defined.

(** ** From signup to a token *)

Lemma signup_stores_user (env : Env) (body : SignupBody) (w : World) :
  users_find_one (sb_email body) (w_db w) = None →
  secret_ok (sb_password body) = true →
  users_find_one (sb_email body) (w_db (signup env body w).2)
  = Some (signup_user env body w).
Proof.
  intros Hnone Hok. rewrite signup_new by done. simpl.
  unfold users_find_one in *. simpl. rewrite find_app, Hnone. simpl.
  by rewrite bool_decide_eq_true_2.
Qed.

Lemma signup_stores_nothing (env : Env) (body : SignupBody) (w : World) :
  users_find_one (sb_email body) (w_db w) = None →
  secret_ok (sb_password body) = false →
  w_db (signup env body w).2 = w_db w.
Proof.
  intros Hnone Hok.
  by destruct (signup_refused env body w Hnone Hok) as (msg & w' & -> & Hdb).
Qed.

(** X23. After a [signup] with a new email, [login] with the same email
    and password, the hasher verifying what it hashed: when the hasher
    took the password, the answer is "OTP sent to email" with [verified]
    false and one more challenge; when it refused the password, no user
    was stored and the answer is 400 "Invalid credentials".  Any
    password the hasher does not verify against the stored hash gets
    400 "Invalid credentials" and changes nothing. *)
Theorem signup_then_login (env : Env) (body : SignupBody) (w w1 : World) :
  HashLaws (pwd_context env) →
  users_find_one (sb_email body) (w_db w) = None →
  w_db w1 = w_db (signup env body w).2 →
  login env (mkLoginBody (sb_email body) (sb_password body)) w1
  = (if secret_ok (sb_password body)
     then (Ret (LoginOtpResponse true false "OTP sent to email"),
           after_store_otp env (sb_email body) w1)
     else (Raise (HTTPException 400 "Invalid credentials"), w1))
  ∧ (∀ password,
       secret_ok (sb_password body) = true →
       ctx_verify (pwd_context env) password
         (ctx_hash (pwd_context env) (sb_password body) (next_salt w))
       = Ret false →
       login env (mkLoginBody (sb_email body) password) w1
       = (Raise (HTTPException 400 "Invalid credentials"), w1)).
Proof.
  intros Hlaws Hnone Hdb. split.
  - destruct (secret_ok (sb_password body)) eqn:Hok.
    + pose proof (signup_stores_user env body w Hnone Hok) as Hu.
      rewrite <- Hdb in Hu.
      rewrite (login_known env
                 (mkLoginBody (sb_email body) (sb_password body)) w1 _ Hu).
      simpl. by rewrite (ctx_verify_hash _ Hlaws).
    + rewrite (signup_stores_nothing env body w Hnone Hok) in Hdb.
      apply login_unknown. simpl. by rewrite Hdb.
  - intros password Hok Hbad.
    pose proof (signup_stores_user env body w Hnone Hok) as Hu.
    rewrite <- Hdb in Hu.
    rewrite (login_known env (mkLoginBody (sb_email body) password) w1 _ Hu).
    simpl. by rewrite Hbad.
Qed.

Lemma signup_then_login_witness :
  login ref_env (mkLoginBody "a@x.com" "p1") (demo_world_at 100)
  = (Ret (LoginOtpResponse true false "OTP sent to email"),
     after_store_otp ref_env "a@x.com" (demo_world_at 100))
  ∧ login ref_env (mkLoginBody "a@x.com" nul_password) (demo_world [])
    = (Raise (HTTPException 400 "Invalid credentials"), demo_world []).
Proof.
  split.
  - exact (proj1 (signup_then_login ref_env demo_signup
                    (demo_world demo_clock) (demo_world_at 100)
                    ref_hash_laws eq_refl eq_refl)).
  - exact (proj1 (signup_then_login ref_env
                    (mkSignupBody "A" "a@x.com" nul_password)
                    (demo_world demo_clock) (demo_world [])
                    ref_hash_laws eq_refl eq_refl)).
Defined.

(** X24. The whole way to a token: after a [signup] and a [verify_otp]
    for the same email that succeeded, [login] with the password of the
    signup (the hasher verifying what it hashed) answers [verified] true
    with a token and the [_id], name and email under which the user was
    created. *)
Theorem signup_verify_login (env : Env) (body : SignupBody) (otp : string)
    (w w1 w2 w3 : World) (resp : Response) :
  HashLaws (pwd_context env) →
  users_find_one (sb_email body) (w_db w) = None →
  w_db w1 = w_db (signup env body w).2 →
  verify_otp env (mkVerifyOtpBody (sb_email body) otp) w1 = (Ret resp, w2) →
  w_db w3 = w_db w2 →
  ∃ token,
    login env (mkLoginBody (sb_email body) (sb_password body)) w3
    = (Ret (LoginResponse true true token
              (mkUserPublic (str_oid (next_oid (w_db w))) (sb_name body)
                            (sb_email body))),
       after_read w3).
Proof.
  intros Hlaws Hnone Hdb1 Hverify Hdb3.
  rewrite verify_otp_eq in Hverify. simpl in Hverify.
  destruct (otp_find_one_latest _ _) as [record|]; [|done].
  simpl in Hverify. destruct (otp_expired record w1); [done|].
  destruct (ctx_verify _ _ _) as [[]|e']; try done.
  unfold after_mark_verified in Hverify. simpl in Hverify.
  rewrite users_find_one_set_verified in Hverify.
  destruct (secret_ok (sb_password body)) eqn:Hok.
  - pose proof (signup_stores_user env body w Hnone Hok) as Hu.
    rewrite <- Hdb1 in Hu.
    rewrite Hu in Hverify. simpl in Hverify.
    injection Hverify as _ <-.
    rewrite after_read_db in Hdb3. simpl in Hdb3.
    assert (users_find_one (sb_email body) (w_db w3)
            = Some (set_verified
                      (bson_datetime
                         (clock_reading (after_expiry_check record w1)))
                      (signup_user env body w))) as Hu3
      by by rewrite Hdb3, users_find_one_set_verified, Hu.
    rewrite (login_known env
               (mkLoginBody (sb_email body) (sb_password body)) w3 _ Hu3).
    simpl.
    rewrite (ctx_verify_hash _ Hlaws) by done. simpl. by eexists.
  - rewrite (signup_stores_nothing env body w Hnone Hok) in Hdb1.
    by rewrite Hdb1, Hnone in Hverify.
Qed.

Lemma signup_verify_login_witness :
  ∃ token,
    login ref_env (mkLoginBody "a@x.com" "p1")
      (verify_otp ref_env demo_verify (demo_world_at 100)).2
    = (Ret (LoginResponse true true token (mkUserPublic "0" "A" "a@x.com")),
       after_read (verify_otp ref_env demo_verify (demo_world_at 100)).2).
Proof.
  destruct (verify_otp ref_env demo_verify (demo_world_at 100))
    as [[resp|e] w2] eqn:Hrun; [|vm_compute in Hrun; discriminate].
  exact (signup_verify_login ref_env demo_signup "123456"
           (demo_world demo_clock) (demo_world_at 100) w2 w2 resp
           ref_hash_laws eq_refl eq_refl Hrun eq_refl).
Defined.

(** ** The diagnostic route *)


(** X25. In the answer of [GET /test], [database_url] and
    [database_name] say only whether the environment variables
    DATABASE_URL and DATABASE_NAME are set and not empty: what was
    written there from [db] (its [name] included) is overwritten, so the
    two fields are the same for every [db]. *)
Theorem test_database_env_fields (db : option DbHandle)
    (environ : gmap string string) :
  tr_database_url (test_database db environ)
  = Some (if getenv_truthy environ "DATABASE_URL" then "✅ Set"
          else "❌ Not Set")
  ∧ tr_database_name (test_database db environ)
    = Some (if getenv_truthy environ "DATABASE_NAME" then "✅ Set"
            else "❌ Not Set")
  ∧ tr_database_url (test_database db environ)
    = tr_database_url (test_database None environ)
  ∧ tr_database_name (test_database db environ)
    = tr_database_name (test_database None environ).
Proof.
  unfold test_database.
  destruct db as [[[msg|name] [msg'|collections]]|]; by simpl.
Qed.

(** X26. In the answer of [GET /test], [collections] holds the first ten
    names the store listed, in order, and never more than ten; it is
    empty when [db] is [None], when reading [db.name] raised and when the
    listing raised.  [connection_status] is "Connected" exactly when
    [db] is there and its [name] could be read, and [database] never
    keeps its initial value. *)
Theorem test_database_collections (db : option DbHandle)
    (environ : gmap string string) :
  (length (tr_collections (test_database db environ)) ≤ 10)%nat
  ∧ match db with
    | Some (mkDbHandle (inr _) (inr collections)) =>
        tr_collections (test_database db environ) = take 10 collections
        ∧ tr_collections (test_database db environ) `prefix_of` collections
        ∧ tr_connection_status (test_database db environ) = "Connected"
    | Some (mkDbHandle (inr _) (inl _)) =>
        tr_collections (test_database db environ) = []
        ∧ tr_connection_status (test_database db environ) = "Connected"
    | _ =>
        tr_collections (test_database db environ) = []
        ∧ tr_connection_status (test_database db environ) = "Not Connected"
    end
  ∧ tr_database (test_database db environ) ≠ "❌ Not Available".
Proof.
  unfold test_database.
  destruct db as [[[msg|name] [msg'|collections]]|]; simpl;
    split_and!; try done; try lia.
  - rewrite length_take. lia.
  - apply prefix_take.
Qed.

Example test_database_demo :
  test_database (Some demo_db_handle) {["DATABASE_URL" := "mongodb://x"]}
  = mkTestResponse "✅ Running" "✅ Connected & Working" (Some "✅ Set")
      (Some "❌ Not Set") "Connected"
      ["users"; "otp_codes"; "conversations"; "messages"; "shares";
       "liked_messages"; "disliked_messages"; "c8"; "c9"; "c10"].
Proof. vm_compute. reflexivity. Qed.
